(** * bugs-to-jira: a shallow embedding of [create_bug_tickets.py]

    The script reads a CSV file of reported defects, keeps the rows of one
    priority and, after an interactive confirmation per row, files each of
    them as a Bug in a Jira project through the REST API.

    Python values that come out of [json] are embedded as the inductive
    [json]; the rows produced by [csv.DictReader] as [csv_row]; the
    effects of the script (standard output, standard input, HTTP requests,
    the [jira_id] attribute stored on the members of the [IssueType] enum
    and the module global [project_key]) as a state-and-exception monad
    over a [world].  Library functions whose behaviour is not part of the
    script ([csv.reader] tokenising the file, [datetime.fromisoformat],
    [b64encode], the remote server) are parameters of the development. *)

From Stdlib Require Import Ascii.
From stdpp Require Import gmap strings list sorting.

Set Warnings "-register-all".
Open Scope string_scope.
Open Scope list_scope.
Open Scope Z_scope.

(** ** Python values decoded from JSON *)

(** The values [response.json()] returns.  JSON numbers with a fraction
    (Python floats) are not represented; no function of the script
    computes with them. *)
Inductive json : Type :=
| JNull
| JBool (b : bool)
| JNum (n : Z)
| JStr (s : string)
| JArr (l : list json)
| JObj (kv : list (string * json)).

(** The pieces of an f-string.  [str] of a list, a dict or a set is left
    symbolic: the script only ever prints such text or puts it in an
    exception, it never inspects it. *)
Inductive frag : Type :=
| FLit (s : string)           (* literal text, or a [str] value as it is *)
| FStr (v : json)             (* [str(v)] of a decoded JSON value *)
| FRepr (v : json)            (* [repr(v)] of a decoded JSON value *)
| FSet (s : gset string).     (* [str(s)] of a set of strings *)

Definition text := list frag.

(** ** Exceptions *)

Inductive exn : Type :=
| ValueError (msg : text)
| KeyError (k : json)
| IndexError
| TypeError
| AssertionError
| AttributeError
| NameError
| StopIteration
| EOFError
| OSError
| RequestFailure (status : Z)   (* [raise_for_status], or the transport *)
| SystemExit.

Inductive result (A : Type) : Type :=
| Ok (a : A)
| Raise (e : exn).
Arguments Ok {A} a.
Arguments Raise {A} e.

Definition rbind {A B} (r : result A) (k : A -> result B) : result B :=
  match r with
  | Ok a => k a
  | Raise e => Raise e
  end.

Declare Scope res_scope.
Delimit Scope res_scope with res.
Notation "'try!' x := e 'in' k" := (rbind e (fun x => k))
  (at level 10, x name, e at level 100, k at level 200,
   format "'[v' 'try!'  x  :=  e  'in' '/' k ']'") : res_scope.
Open Scope res_scope.

(** ** Python operators on decoded values *)

(** [bool(v)]. *)
Definition py_truthy (v : json) : bool :=
  match v with
  | JNull => false
  | JBool b => b
  | JNum n => negb (n =? 0)
  | JStr s => negb (String.eqb s "")
  | JArr l => match l with [] => false | _ => true end
  | JObj kv => match kv with [] => false | _ => true end
  end.

(** [v == s] for a [str] value [s]: only an equal [str] compares equal. *)
Definition py_eq_str (v : json) (s : string) : bool :=
  match v with
  | JStr s' => String.eqb s' s
  | _ => false
  end.

(** Lookup in a dict given by its items. *)
Fixpoint assoc {V} (k : string) (kv : list (string * V)) : option V :=
  match kv with
  | [] => None
  | (k', v) :: rest => if String.eqb k' k then Some v else assoc k rest
  end.

(** [d[k] = v]: replaces the value in place, or appends a new item. *)
Fixpoint dict_set {V} (k : string) (v : V) (kv : list (string * V))
  : list (string * V) :=
  match kv with
  | [] => [(k, v)]
  | (k', v') :: rest =>
      if String.eqb k' k then (k', v) :: rest else (k', v') :: dict_set k v rest
  end.

(** [v[k]] for a [str] key [k]. *)
Definition py_getitem (v : json) (k : string) : result json :=
  match v with
  | JObj kv =>
      match assoc k kv with
      | Some x => Ok x
      | None => Raise (KeyError (JStr k))
      end
  | _ => Raise TypeError
  end.

(** [v[0]]. *)
Definition py_getitem0 (v : json) : result json :=
  match v with
  | JArr (x :: _) => Ok x
  | JArr [] => Raise IndexError
  | JStr (String c _) => Ok (JStr (String c ""))
  | JStr "" => Raise IndexError
  | JObj _ => Raise (KeyError (JNum 0))
  | _ => Raise TypeError
  end.

(** [len(v)]. *)
Definition py_len (v : json) : result nat :=
  match v with
  | JArr l => Ok (length l)
  | JStr s => Ok (String.length s)
  | JObj kv => Ok (length kv)
  | _ => Raise TypeError
  end.

(** [k in v] for a [str] key [k]. *)
Definition py_contains (k : string) (v : json) : result bool :=
  match v with
  | JObj kv => Ok (bool_decide (is_Some (assoc k kv)))
  | JArr l => Ok (existsb (fun x => py_eq_str x k) l)
  | JStr s => Ok (bool_decide (is_Some (String.index 0 k s)))
  | _ => Raise TypeError
  end.

(** The elements a [for] loop over [v] visits. *)
Definition py_iter (v : json) : result (list json) :=
  match v with
  | JArr l => Ok l
  | JObj kv => Ok (map (fun p => JStr (fst p)) kv)
  | JStr s => Ok (map (fun c => JStr (String c "")) (String.list_ascii_of_string s))
  | _ => Raise TypeError
  end.

(** [None] or a [str], as a Python value. *)
Definition of_opt (o : option string) : json :=
  match o with
  | Some s => JStr s
  | None => JNull
  end.

(** ** The [IssueType] enumeration *)

Inductive IssueType : Type :=
| INITIATIVE | EPIC | STORY | TASK | BUG
| SUBTASK | ENG_DESIGN | RELEASE | FEATURE_FLAG | DESIGN.

Definition value (t : IssueType) : string :=
  match t with
  | INITIATIVE => "Initiative"
  | EPIC => "Epic"
  | STORY => "Story"
  | TASK => "Task"
  | BUG => "Bug"
  | SUBTASK => "Sub-task"
  | ENG_DESIGN => "Eng Design"
  | RELEASE => "Release"
  | FEATURE_FLAG => "Feature Flag"
  | DESIGN => "Design"
  end.

Definition members : list IssueType :=
  [INITIATIVE; EPIC; STORY; TASK; BUG;
   SUBTASK; ENG_DESIGN; RELEASE; FEATURE_FLAG; DESIGN].

Definition by_value (s : string) : option IssueType :=
  List.find (fun t => String.eqb (value t) s) members.

#[global] Instance IssueType_eq_dec : EqDecision IssueType.
Proof. solve_decision. Defined.

#[global] Instance IssueType_countable : Countable IssueType.
Proof.
  refine (inj_countable' value (fun s => default BUG (by_value s)) _).
  intros []; reflexivity.
Defined.

(** [IssueType(v)]: the member whose value is [v]; a value that names no
    member (or is not a [str]) raises [ValueError]. *)
Definition IssueType_call (v : json) : result IssueType :=
  match v with
  | JStr s =>
      match by_value s with
      | Some t => Ok t
      | None => Raise (ValueError [FRepr v; FLit " is not a valid IssueType"])
      end
  | _ => Raise (ValueError [FRepr v; FLit " is not a valid IssueType"])
  end.

(** ** Settings and REST constants *)

Record config : Type := Config {
  JIRA_EMAIL : option string;
  JIRA_TOKEN : option string;
  PROJECT_KEY : option string;
  JIRA_BASE_URL : string
}.

(** The settings as they stand in the file. *)
Definition source_config : config :=
  {| JIRA_EMAIL := None;
     JIRA_TOKEN := None;
     PROJECT_KEY := Some "DW";
     JIRA_BASE_URL := "https://joinhonor.atlassian.net" |}.

Definition SEARCH_API_ENDPOINT : string := "/rest/api/2/search".
Definition ISSUES_API_ENDPOINT : string := "/rest/api/2/issue".
Definition BOARD_ENDPOINT : string := "/rest/agile/1.0/board".

(** ** Effects *)

Inductive method : Type := GET | POST.

Record request : Type := Request {
  req_method : method;
  req_url : text;
  req_headers : list (string * string);
  req_params : list (string * json);
  req_data : option json
}.

(** The keyword arguments the driver builds for [create_issue]. *)
Record kwargs : Type := Kwargs {
  kw_project_key : json;
  kw_issue_type : IssueType;
  kw_summary : json;
  kw_description : json;
  kw_epic_key : json;
  kw_sprint_id : json
}.

Inductive event : Type :=
| EvPrint (t : text)            (* [print(t)] *)
| EvPPrintJson (v : json)       (* [pprint(v)] *)
| EvPPrintKwargs (k : kwargs)   (* [pprint(kwargs, sort_dicts=False, indent=2)] *)
| EvPrompt (s : string)         (* the prompt [input(s)] writes *)
| EvRead (s : string)           (* the line [input] returns *)
| EvRequest (r : request).      (* a request sent to the tracker *)

Record world : Type := World {
  w_trace : list event;                  (* what has happened, oldest first *)
  w_stdin : list string;                 (* the lines still to be typed *)
  w_jira_id : gmap IssueType json;       (* the [jira_id] attribute of the members *)
  w_project_key : option json            (* the global [project_key], once bound *)
}.

Definition M (A : Type) : Type := world -> result A * world.

Definition ret {A} (a : A) : M A := fun w => (Ok a, w).

Definition raise {A} (e : exn) : M A := fun w => (Raise e, w).

Definition bind {A B} (m : M A) (k : A -> M B) : M B :=
  fun w =>
    match m w with
    | (Ok a, w') => k a w'
    | (Raise e, w') => (Raise e, w')
    end.

Definition liftR {A} (r : result A) : M A := fun w => (r, w).

Notation "'let!' x := e 'in' k" := (bind e (fun x => k))
  (at level 10, x name, e at level 100, k at level 200,
   format "'[v' 'let!'  x  :=  e  'in' '/' k ']'").
Notation "'run!' e 'in' k" := (bind e (fun _ => k))
  (at level 10, e at level 100, k at level 200,
   format "'[v' 'run!'  e  'in' '/' k ']'").

Definition emit (e : event) : M unit :=
  fun w => (Ok tt, {| w_trace := w_trace w ++ [e];
                      w_stdin := w_stdin w;
                      w_jira_id := w_jira_id w;
                      w_project_key := w_project_key w |}).

Definition print (t : text) : M unit := emit (EvPrint t).

(** [input(prompt)]: writes the prompt, then reads one line; [EOFError]
    at the end of the input. *)
Definition input (prompt : string) : M string :=
  run! emit (EvPrompt prompt) in
  fun w =>
    match w_stdin w with
    | [] => (Raise EOFError, w)
    | l :: rest =>
        (Ok l, {| w_trace := w_trace w ++ [EvRead l];
                  w_stdin := rest;
                  w_jira_id := w_jira_id w;
                  w_project_key := w_project_key w |})
    end.

(** [enum_value.add_jira_id(_id)]. *)
Definition add_jira_id (t : IssueType) (_id : json) : M unit :=
  fun w => (Ok tt, {| w_trace := w_trace w;
                      w_stdin := w_stdin w;
                      w_jira_id := <[t := _id]> (w_jira_id w);
                      w_project_key := w_project_key w |}).

(** [issue_type.jira_id]: [AttributeError] before discovery set it. *)
Definition jira_id (t : IssueType) : M json :=
  fun w =>
    match w_jira_id w !! t with
    | Some i => (Ok i, w)
    | None => (Raise AttributeError, w)
    end.

(** The requests of a trace, oldest first. *)
Definition requests_of (tr : list event) : list request :=
  omap (fun e => match e with EvRequest r => Some r | _ => None end) tr.

Definition is_post (r : request) : bool :=
  match req_method r with POST => true | GET => false end.

(** The ticket-creation requests of a trace. *)
Definition posts_of (tr : list event) : list request :=
  List.filter is_post (requests_of tr).

Definition for_each {A} (f : A -> M unit) : list A -> M unit :=
  fix go (l : list A) : M unit :=
    match l with
    | [] => ret tt
    | x :: rest => run! f x in go rest
    end.

(** A list comprehension whose element expression may raise. *)
Fixpoint map_r {A B} (f : A -> result B) (l : list A) : result (list B) :=
  match l with
  | [] => Ok []
  | x :: rest =>
      try! y := f x in
      try! ys := map_r f rest in
      Ok (y :: ys)
  end.

(** A list comprehension with an [if] clause that may raise. *)
Fixpoint filter_r {A} (p : A -> result bool) (l : list A) : result (list A) :=
  match l with
  | [] => Ok []
  | x :: rest =>
      try! b := p x in
      try! ys := filter_r p rest in
      Ok (if b then x :: ys else ys)
  end.

(** ** Strings

    A character is a code point below 256. *)

Definition nl : string := String "010"%char "".
Definition dquote : string := String "034"%char "".

Definition str_opt (o : option string) : string :=
  match o with
  | Some s => s
  | None => "None"
  end.

(** [c.isspace()]. *)
Definition is_space (c : ascii) : bool :=
  let n := nat_of_ascii c in
  ((9 <=? n) && (n <=? 13) || (28 <=? n) && (n <=? 32)
   || (n =? 133) || (n =? 160))%nat.

(** [c.lower()]. *)
Definition lower_char (c : ascii) : ascii :=
  let n := nat_of_ascii c in
  if ((65 <=? n) && (n <=? 90)
      || (192 <=? n) && (n <=? 222) && negb (n =? 215))%nat
  then ascii_of_nat (n + 32)
  else c.

Fixpoint lower (s : string) : string :=
  match s with
  | "" => ""
  | String c r => String (lower_char c) (lower r)
  end.

Fixpoint lstrip (s : string) : string :=
  match s with
  | "" => ""
  | String c r => if is_space c then lstrip r else s
  end.

Fixpoint rstrip (s : string) : string :=
  match s with
  | "" => ""
  | String c r =>
      let r' := rstrip r in
      if is_space c && String.eqb r' "" then "" else String c r'
  end.

(** [s.strip()]. *)
Definition strip (s : string) : string := rstrip (lstrip s).

(** ** Timestamps *)

(** A [datetime]: its place on the time line, and whether it carries a
    time zone.  Ordering a naive against an aware [datetime] raises
    [TypeError]. *)
Record datetime : Type := Datetime {
  dt_instant : Z;
  dt_aware : bool
}.

Definition uniform (ks : list datetime) : bool :=
  match ks with
  | [] => true
  | k :: rest => forallb (fun k' => Bool.eqb (dt_aware k') (dt_aware k)) rest
  end.

Fixpoint insert_by_key {A} (k : Z) (x : A) (l : list (Z * A)) : list (Z * A) :=
  match l with
  | [] => [(k, x)]
  | (k', y) :: rest =>
      if k <=? k' then (k, x) :: (k', y) :: rest
      else (k', y) :: insert_by_key k x rest
  end.

(** A stable sort by key, ascending. *)
Definition stable_sort {A} (l : list (Z * A)) : list (Z * A) :=
  foldr (fun p acc => insert_by_key (fst p) (snd p) acc) [] l.

(** ** Rows of the CSV file *)

(** A row as [csv.DictReader] yields it: the cells under the column
    names ([None], the reader's [restval], where the record was short) and,
    under the key [None] (the reader's [restkey]), the surplus cells of a
    record longer than the header. *)
Record csv_row : Type := CsvRow {
  named : gmap string (option string);
  surplus : option (list string)
}.

#[global] Instance csv_row_eq_dec : EqDecision csv_row.
Proof. solve_decision. Defined.

(** [bool(c)] of a cell. *)
Definition cell_truthy (c : option string) : bool :=
  match c with
  | Some s => negb (String.eqb s "")
  | None => false
  end.

(** [row[k]]. *)
Definition getcell (row : csv_row) (k : string) : result (option string) :=
  match named row !! k with
  | Some c => Ok c
  | None => Raise (KeyError (JStr k))
  end.

(** [dict(zip(fieldnames, row))] and the two branches on the lengths. *)
Definition make_row (fieldnames row : list string) : csv_row :=
  let d := foldl (fun m p => <[fst p := Some (snd p)]> m) ∅ (zip fieldnames row) in
  let lf := length fieldnames in
  let lr := length row in
  if (lf <? lr)%nat then
    {| named := d; surplus := Some (drop lf row) |}
  else if (lr <? lf)%nat then
    {| named := foldl (fun m k => <[k := None]> m) d (drop lr fieldnames);
       surplus := None |}
  else
    {| named := d; surplus := None |}.

(** The rows [csv.DictReader] yields from the records of a file: the
    first record gives the field names, empty records are skipped. *)
Definition DictReader (records : list (list string)) : list csv_row :=
  match records with
  | [] => []
  | fieldnames :: rest =>
      map (make_row fieldnames)
          (List.filter (fun r => match r with [] => false | _ => true end) rest)
  end.

Definition expected_cols : list string :=
  ["Priority"; "Description of issue"; "Additional notes"; "Platform/URL";
   "Title"].

Definition nonempty (c : string) : bool := negb (String.eqb c "").

(** The header check, on the records [csv.reader] yields from the file. *)
Definition validate_columns (records : list (list string)) : result unit :=
  match records with
  | [] => Raise StopIteration
  | header :: _ =>
      let cols := List.filter nonempty header in
      if negb (size (list_to_set cols : gset string) =? length cols)%nat then
        Raise (ValueError [FLit "One or more columns in csv is repeated"])
      else
        let missing_cols : gset string :=
          list_to_set expected_cols ∖ list_to_set cols in
        if negb (bool_decide (missing_cols = ∅)) then
          Raise (ValueError [FLit "Expected columns are missing from csv: ";
                             FSet missing_cols])
        else Ok tt
  end.

(** The loop that collects the rows of the requested priority. *)
Fixpoint collect (priority : string) (reader matching_rows : list csv_row)
  : result (list csv_row) :=
  match reader with
  | [] => Ok matching_rows
  | row :: rest =>
      try! p := getcell row "Priority" in
      collect priority rest
        (if bool_decide (p = Some priority) then matching_rows ++ [row]
         else matching_rows)
  end.

(** The [with open(...)] block.  [fs] gives, for a file that can be
    opened, the records [csv.reader] yields from it. *)
Definition read_csv (fs : string -> option (list (list string)))
    (filename priority : string) : result (list csv_row) :=
  match fs filename with
  | None => Raise OSError
  | Some records =>
      try! _ := validate_columns records in
      collect priority (DictReader records) []
  end.

Definition notes_section (notes : string) : string :=
  nl +:+ nl +:+ "**Additional notes**:" +:+ nl +:+ notes.

Definition url_section (url : string) : string :=
  nl +:+ nl +:+ "**Platform/URL**: " +:+ url.

(** [description += s]. *)
Definition cell_add (description : option string) (s : string)
  : result (option string) :=
  match description with
  | Some d => Ok (Some (d +:+ s))
  | None => Raise TypeError
  end.

(** The title and the description the driver derives from a row. *)
Definition draft (row : csv_row) : result (option string * option string) :=
  try! description := getcell row "Description of issue" in
  try! t := getcell row "Title" in
  let title := if cell_truthy t then t else description in
  try! notes := getcell row "Additional notes" in
  try! description :=
    (if cell_truthy notes then cell_add description (notes_section (str_opt notes))
     else Ok description) in
  try! url := getcell row "Platform/URL" in
  try! description :=
    (if cell_truthy url then cell_add description (url_section (str_opt url))
     else Ok description) in
  Ok (title, description).

(** ** The functions of the script *)

Record args : Type := Args {
  filename : string;
  epic : option string;
  board_id : option string;
  priority : string;
  list_fields : bool;
  add_to_sprint : bool
}.

Section Script.

Variable cfg : config.
(** [b64encode(s.encode()).decode()]. *)
Variable b64encode : string -> string.
(** The tracker: the decoded body it answers a request with, or the
    failure [raise_for_status] turns its answer into, given the requests
    it has already received. *)
Variable remote : list request -> request -> result json.
(** [dt.datetime.fromisoformat]. *)
Variable fromisoformat : json -> result datetime.

Definition base : frag := FLit (JIRA_BASE_URL cfg).

(** *** [AuthenticatedRequest] *)

Definition _headers : list (string * string) :=
  let auth := str_opt (JIRA_EMAIL cfg) +:+ ":" +:+ str_opt (JIRA_TOKEN cfg) in
  [("Authorization", "Basic " +:+ b64encode auth);
   ("Content-Type", "application/json")].

Definition send (r : request) : M json :=
  fun w =>
    (remote (requests_of (w_trace w)) r,
     {| w_trace := w_trace w ++ [EvRequest r];
        w_stdin := w_stdin w;
        w_jira_id := w_jira_id w;
        w_project_key := w_project_key w |}).

Definition get (url : text) (params : list (string * json)) : M json :=
  send {| req_method := GET; req_url := url; req_headers := _headers;
          req_params := params; req_data := None |}.

Definition post (url : text) (data : json) : M json :=
  send {| req_method := POST; req_url := url; req_headers := _headers;
          req_params := []; req_data := Some data |}.

(** *** Metadata *)

Fixpoint find_project (project_key : string) (data : list json) : result json :=
  match data with
  | [] => Raise (ValueError [FLit project_key; FLit " not found"])
  | project :: rest =>
      try! k := py_getitem project "key" in
      if py_eq_str k project_key then Ok project
      else find_project project_key rest
  end.

Definition get_create_metadata (project_key : option string) : M json :=
  let url := [base; FLit ISSUES_API_ENDPOINT; FLit "/createmeta"] in
  let! resp := get url [] in
  let! data := liftR (py_getitem resp "projects") in
  match project_key with
  | Some pk =>
      if nonempty pk then
        let! projects := liftR (py_iter data) in
        liftR (find_project pk projects)
      else ret data
  | None => ret data
  end.

(** The body of the [try] in [get_issue_types]. *)
Definition known_issue_type (issue_type : json) : result (IssueType * json) :=
  try! name := py_getitem issue_type "name" in
  try! enum_value := IssueType_call name in
  try! _id := py_getitem issue_type "id" in
  Ok (enum_value, _id).

Definition register (issue_type : json) : M unit :=
  match known_issue_type issue_type with
  | Ok (enum_value, _id) => add_jira_id enum_value _id
  | Raise _ =>
      let! name := liftR (py_getitem issue_type "name") in
      print [FStr name; FLit " is not a known IssueType value"]
  end.

Definition get_issue_types (project_key : option string) : M json :=
  let! data := get_create_metadata project_key in
  let! issuetypes := liftR (py_getitem data "issuetypes") in
  let! l := liftR (py_iter issuetypes) in
  run! for_each register l in
  ret issuetypes.

Definition field_summary (f : json) : result json :=
  try! name := py_getitem f "name" in
  try! key := py_getitem f "key" in
  try! required := py_getitem f "required" in
  try! schema := py_getitem f "schema" in
  try! ty := py_getitem schema "type" in
  try! operations := py_getitem f "operations" in
  Ok (JObj [("name", name); ("key", key); ("required", required);
            ("schemaType", ty); ("operations", operations)]).

Definition get_create_field_metadata (project_key : option string)
    (issue_type : IssueType) : M json :=
  let! jid := jira_id issue_type in
  let url := [base; FLit "/rest/api/3/issue/createmeta/";
              FStr (of_opt project_key); FLit "/issuetypes/"; FStr jid] in
  let! data := get url [] in
  let! fields := liftR (py_getitem data "fields") in
  let! fs := liftR (py_iter fields) in
  let! required_fields :=
    liftR (filter_r (fun f => try! r := py_getitem f "required" in
                              Ok (py_truthy r)) fs) in
  let! keys := liftR (map_r (fun f => py_getitem f "key") required_fields) in
  run! print [FLit "Required fields: "; FStr (JArr keys)] in
  let! out := liftR (map_r field_summary fs) in
  ret (JArr out).

(** [str(obj, encoding)] wants a bytes-like [obj] and a [str] encoding;
    no decoded JSON value is bytes-like, so the call raises whatever the
    two values are. *)
Definition py_str2 (obj encoding : json) : result string := Raise TypeError.

(** The element expression of the comprehension in [get_board_id]. *)
Definition board_label (board : json) : result string :=
  try! name := py_getitem board "name" in
  try! id := py_getitem board "id" in
  py_str2 name id.

Definition get_board_id (project_key : option string) (board_type : string)
  : M json :=
  let url := [base; FLit BOARD_ENDPOINT] in
  let params := [("projectKeyOrId", of_opt project_key);
                 ("type", JStr board_type)] in
  let! data := get url params in
  let! values := liftR (py_getitem data "values") in
  let! n := liftR (py_len values) in
  if negb (n =? 1)%nat then
    let! boards := liftR (py_iter values) in
    let! labels := liftR (map_r board_label boards) in
    let board_names := String.concat ", " labels in
    raise (ValueError [FLit "Found "; FStr (JNum (Z.of_nat n));
                       FLit " boards: "; FLit board_names;
                       FLit ". Try setting the --board_id option directly"])
  else
    let! board := liftR (py_getitem0 values) in
    liftR (py_getitem board "id").

(** The global [project_key]; [NameError] while it is unbound. *)
Definition global_project_key : M json :=
  fun w =>
    match w_project_key w with
    | Some pk => (Ok pk, w)
    | None => (Raise NameError, w)
    end.

Definition set_global_project_key (pk : json) : M unit :=
  fun w => (Ok tt, {| w_trace := w_trace w;
                      w_stdin := w_stdin w;
                      w_jira_id := w_jira_id w;
                      w_project_key := Some pk |}).

Definition get_current_sprint_id (board_id : text) : M json :=
  let url :=
    [base; FLit BOARD_ENDPOINT; FLit "/"] ++ board_id ++ [FLit "/sprint"] in
  let params := [("state", JStr "active")] in
  let! data := get url params in
  let! has_values := liftR (py_contains "values" data) in
  let! some_active :=
    (if has_values then
       let! values := liftR (py_getitem data "values") in
       let! n := liftR (py_len values) in
       ret (0 <? n)%nat
     else ret false) in
  if some_active then
    let! values := liftR (py_getitem data "values") in
    let! sprint := liftR (py_getitem0 values) in
    liftR (py_getitem sprint "id")
  else
    let! project_key := global_project_key in
    raise (ValueError [FLit "No active sprint found for "; FStr project_key]).

(** *** Creating and searching issues *)

(** [if v: data[k] = f(v)]. *)
Definition set_if (v : json) (k : string) (x : json)
    (data : list (string * json)) : list (string * json) :=
  if py_truthy v then dict_set k x data else data.

(** The [data] dict [create_issue] builds. *)
Definition issue_fields (project_key : json) (issue_type : IssueType)
    (summary priority description parent_key epic_key sprint_id : json)
  : list (string * json) :=
  let data := [("project", JObj [("key", project_key)]);
               ("issuetype", JObj [("name", JStr (value issue_type))]);
               ("summary", summary)] in
  let data := set_if priority "priority" (JObj [("name", priority)]) data in
  let data := set_if description "description" description data in
  let data := set_if parent_key "customfield_10009" parent_key data in
  let data := set_if epic_key "customfield_10008" epic_key data in
  let data := set_if sprint_id "customfield_10010" sprint_id data in
  data.

Definition issues_url : text := [base; FLit ISSUES_API_ENDPOINT].

Definition create_issue (project_key : json) (issue_type : IssueType)
    (summary priority description parent_key epic_key sprint_id : json)
  : M text :=
  let data := issue_fields project_key issue_type summary priority
                description parent_key epic_key sprint_id in
  let! data := post issues_url (JObj [("fields", JObj data)]) in
  let! key := liftR (py_getitem data "key") in
  ret [base; FLit "/browse/"; FStr key].

(** [jql_parts] of [get_issues].  [statuses] holds the [value] of each
    member passed. *)
Definition jql_parts (assignee project : option string)
    (in_current_sprint : bool) (statuses keys : option (list string))
  : list string :=
  (if cell_truthy assignee then ["assignee=" +:+ str_opt assignee] else [])
  ++ (if cell_truthy project then ["project = " +:+ str_opt project] else [])
  ++ (if in_current_sprint then ["sprint IN openSprints()"] else [])
  ++ (match statuses with
      | Some ((_ :: _) as sts) =>
          ["status IN (" +:+ String.concat ", " sts +:+ ")"]
      | _ => []
      end)
  ++ (match keys with
      | Some [k] => ["issueKey = " +:+ dquote +:+ k +:+ dquote]
      | Some ((_ :: _) as ks) =>
          ["issueKey IN ("
           +:+ String.concat ", " (map (fun k => dquote +:+ k +:+ dquote) ks)
           +:+ ")"]
      | _ => []
      end).

(** The sort key of [get_issues]. *)
Definition updated (issue : json) : result datetime :=
  try! u := py_getitem issue "updated" in
  fromisoformat u.

(** [sorted(issues, key=...)]: the keys are computed first, in order;
    any comparison sort of two or more keys has to order a naive key
    against an aware one when both kinds occur. *)
Definition sorted_by_updated (issues : list json) : result (list json) :=
  try! ks := map_r updated issues in
  if uniform ks then
    Ok (map snd (stable_sort (zip (map dt_instant ks) issues)))
  else Raise TypeError.

Definition search_url : text := [base; FLit SEARCH_API_ENDPOINT].

Definition get_issues (assignee project : option string)
    (in_current_sprint : bool) (statuses keys : option (list string))
  : M (list json) :=
  let parts := jql_parts assignee project in_current_sprint statuses keys in
  let params := [("jql", JStr (String.concat " AND " parts))] in
  let! data := get search_url params in
  let! issues := liftR (py_getitem data "issues") in
  let! l := liftR (py_iter issues) in
  liftR (sorted_by_updated l).

Definition get_issue (key : string) : M json :=
  let! issues := get_issues None None false None (Some [key]) in
  if (length issues =? 1)%nat then
    match issues with
    | issue :: _ => ret issue
    | [] => raise IndexError
    end
  else raise AssertionError.

(** *** The driver *)

(** [should_create.strip().lower() in ("y", "")]. *)
Definition confirmed (should_create : string) : bool :=
  let a := lower (strip should_create) in
  String.eqb a "y" || String.eqb a "".

Definition kwargs_of (project_key : option string) (a : args)
    (sprint_id : json) (title description : option string) : kwargs :=
  {| kw_project_key := of_opt project_key;
     kw_issue_type := BUG;
     kw_summary := of_opt title;
     kw_description := of_opt description;
     kw_epic_key := of_opt (epic a);
     kw_sprint_id := sprint_id |}.

(** [create_issue] applied to the keyword arguments. *)
Definition create_issue_kw (k : kwargs) : M text :=
  create_issue (kw_project_key k) (kw_issue_type k) (kw_summary k) JNull
    (kw_description k) JNull (kw_epic_key k) (kw_sprint_id k).

(** The body of the loop over [matching_rows]. *)
Definition process_row (project_key : option string) (a : args)
    (sprint_id : json) (row : csv_row) : M unit :=
  let! td := liftR (draft row) in
  let kw := kwargs_of project_key a sprint_id (fst td) (snd td) in
  run! print [FLit (nl +:+ "Create a bug with the following data?")] in
  run! emit (EvPPrintKwargs kw) in
  let! should_create := input "Y/n > " in
  if confirmed should_create then
    let! issue_url := create_issue_kw kw in
    print issue_url
  else print [FLit "Skipping."].

(** Everything the script does before it opens the file; the result is
    [sprint_id]. *)
Definition prelude (a : args) : M json :=
  run! (if negb (cell_truthy (PROJECT_KEY cfg))
           || negb (cell_truthy (JIRA_TOKEN cfg))
        then print [FLit "Set your API token and project in `Config`"]
        else ret tt) in
  let project_key := PROJECT_KEY cfg in
  run! set_global_project_key (of_opt project_key) in
  let! _ := get_issue_types project_key in
  if list_fields a then
    let! data := get_create_field_metadata project_key BUG in
    run! emit (EvPPrintJson data) in
    raise SystemExit
  else if add_to_sprint a then
    run! print [FLit "Getting current sprint..."] in
    let! board :=
      (if negb (cell_truthy (board_id a)) then
         let! b := get_board_id project_key "scrum" in
         ret [FStr b]
       else ret [FLit (str_opt (board_id a))]) in
    get_current_sprint_id board
  else ret JNull.

Definition main (fs : string -> option (list (list string))) (a : args)
  : M unit :=
  let! sprint_id := prelude a in
  run! print [FLit "Reading CSV "; FLit (filename a)] in
  let! matching_rows := liftR (read_csv fs (filename a) (priority a)) in
  run! print [FLit "Found "; FStr (JNum (Z.of_nat (length matching_rows)));
              FLit " bugs with priority "; FLit (priority a);
              FLit ". Creating tickets..."] in
  for_each (process_row (PROJECT_KEY cfg) a sprint_id) matching_rows.

End Script.

(** * Properties *)

(** ** General facts about the embedding *)

Lemma of_opt_truthy (o : option string) :
  py_truthy (of_opt o) = true <-> exists s, o = Some s /\ s <> "".
Proof.
  destruct o as [s|]; simpl.
  - rewrite negb_true_iff. split.
    + intros H. exists s. split; [reflexivity|]. intros ->. discriminate.
    + intros (s' & [= <-] & Hne). apply String.eqb_neq. exact Hne.
  - split; [discriminate|]. intros (s & Hs & _). discriminate.
Qed.

Lemma of_opt_cell_truthy (o : option string) :
  py_truthy (of_opt o) = cell_truthy o.
Proof. destruct o; reflexivity. Qed.

(** ** [create_issue] *)

Section CreateIssue.

Variable cfg : config.
Variable b64encode : string -> string.
Variable remote : list request -> request -> result json.

(** The request [create_issue] sends. *)
Definition creation_request (data : list (string * json)) : request :=
  {| req_method := POST;
     req_url := issues_url cfg;
     req_headers := _headers cfg b64encode;
     req_params := [];
     req_data := Some (JObj [("fields", JObj data)]) |}.

Lemma create_issue_run project_key issue_type summary priority description
    parent_key epic_key sprint_id w :
  let data := issue_fields project_key issue_type summary priority
                description parent_key epic_key sprint_id in
  let req := creation_request data in
  let w' := {| w_trace := w_trace w ++ [EvRequest req];
               w_stdin := w_stdin w;
               w_jira_id := w_jira_id w;
               w_project_key := w_project_key w |} in
  create_issue cfg b64encode remote project_key issue_type summary priority
    description parent_key epic_key sprint_id w
  = (try! resp := remote (requests_of (w_trace w)) req in
     try! key := py_getitem resp "key" in
     Ok [base cfg; FLit "/browse/"; FStr key],
     w').
Proof.
  intros data req w'. subst w' req data.
  unfold create_issue, creation_request, bind, post, send, liftR, ret.
  cbv zeta.
  destruct (remote _ _) as [resp|e]; simpl; [|reflexivity].
  destruct (py_getitem resp "key"); reflexivity.
Qed.

(** C1. Whatever the arguments, [create_issue] sends exactly one POST
    whose body is the dict [fields] built by [issue_fields]; that dict
    always holds the project key, the issue type name and the summary,
    and it holds the priority, the description, [customfield_10009]
    (parent), [customfield_10008] (epic) and [customfield_10010] (sprint)
    exactly when the corresponding argument is truthy, which for an
    argument of the declared type [str | None] means a non-empty
    string. *)
Theorem create_issue_payload project_key issue_type summary priority
    description parent_key epic_key sprint_id w :
  let data := issue_fields project_key issue_type summary priority
                description parent_key epic_key sprint_id in
  (exists r,
      create_issue cfg b64encode remote project_key issue_type summary
        priority description parent_key epic_key sprint_id w
      = (r, {| w_trace := w_trace w ++ [EvRequest (creation_request data)];
               w_stdin := w_stdin w;
               w_jira_id := w_jira_id w;
               w_project_key := w_project_key w |}))
  /\ assoc "project" data = Some (JObj [("key", project_key)])
  /\ assoc "issuetype" data = Some (JObj [("name", JStr (value issue_type))])
  /\ assoc "summary" data = Some summary
  /\ assoc "priority" data
     = (if py_truthy priority then Some (JObj [("name", priority)]) else None)
  /\ assoc "description" data
     = (if py_truthy description then Some description else None)
  /\ assoc "customfield_10009" data
     = (if py_truthy parent_key then Some parent_key else None)
  /\ assoc "customfield_10008" data
     = (if py_truthy epic_key then Some epic_key else None)
  /\ assoc "customfield_10010" data
     = (if py_truthy sprint_id then Some sprint_id else None)
  /\ (forall o : option string,
         py_truthy (of_opt o) = true <-> exists s, o = Some s /\ s <> "").
Proof.
  intros data. split.
  { eexists. apply create_issue_run. }
  subst data. unfold issue_fields, set_if.
  repeat split; try apply of_opt_truthy;
    destruct (py_truthy priority), (py_truthy description),
      (py_truthy parent_key), (py_truthy epic_key), (py_truthy sprint_id);
    reflexivity.
Qed.

End CreateIssue.

(** ** The header check *)

Definition dup_msg : text := [FLit "One or more columns in csv is repeated"].

(** The set the script calls [missing_cols]. *)
Definition missing_of (header : list string) : gset string :=
  list_to_set expected_cols ∖ list_to_set (List.filter nonempty header).

Definition missing_msg (header : list string) : text :=
  [FLit "Expected columns are missing from csv: "; FSet (missing_of header)].

Lemma size_list_to_set_le (l : list string) :
  (size (list_to_set l : gset string) <= length l)%nat.
Proof.
  induction l as [|x l IH].
  - change (size (∅ : gset string) <= 0)%nat. rewrite size_empty. lia.
  - change (list_to_set (x :: l) : gset string)
      with ({[x]} ∪ list_to_set l : gset string).
    cbn [length].
    destruct (decide (x ∈ l)) as [Hin|Hnin].
    + assert (({[x]} ∪ list_to_set l : gset string) = list_to_set l) as Heq
        by (apply subseteq_union_1_L, singleton_subseteq_l, elem_of_list_to_set;
            exact Hin).
      rewrite Heq. lia.
    + rewrite size_union by set_solver. rewrite size_singleton. lia.
Qed.

(** [len(set(cols)) == len(cols)] says that no name occurs twice. *)
Lemma size_list_to_set_NoDup (l : list string) :
  size (list_to_set l : gset string) = length l <-> NoDup l.
Proof.
  split; [|apply size_list_to_set].
  induction l as [|x l IH]; intros Hsz.
  - constructor.
  - change (list_to_set (x :: l) : gset string)
      with ({[x]} ∪ list_to_set l : gset string) in Hsz.
    cbn [length] in Hsz.
    destruct (decide (x ∈ l)) as [Hin|Hnin].
    + assert (({[x]} ∪ list_to_set l : gset string) = list_to_set l) as Heq
        by (apply subseteq_union_1_L, singleton_subseteq_l, elem_of_list_to_set;
            exact Hin).
      rewrite Heq in Hsz. pose proof (size_list_to_set_le l). lia.
    + rewrite size_union in Hsz by set_solver.
      rewrite size_singleton in Hsz.
      constructor; [exact Hnin|]. apply IH. lia.
Qed.

Lemma filter_elem_of (p : string -> bool) (l : list string) (x : string) :
  x ∈ List.filter p l <-> x ∈ l /\ p x = true.
Proof. rewrite !list_elem_of_In. apply filter_In. Qed.

Lemma expected_nonempty (c : string) : c ∈ expected_cols -> nonempty c = true.
Proof.
  unfold expected_cols. rewrite !elem_of_cons, elem_of_nil.
  intros [->|[->|[->|[->|[->|[]]]]]]; reflexivity.
Qed.

Lemma elem_of_missing_of (header : list string) (c : string) :
  c ∈ missing_of header <-> c ∈ expected_cols /\ c ∉ header.
Proof.
  unfold missing_of.
  rewrite elem_of_difference, !elem_of_list_to_set, filter_elem_of.
  split.
  - intros [Hc Hn]. split; [exact Hc|]. intros Hh. apply Hn.
    split; [exact Hh|]. apply expected_nonempty, Hc.
  - intros [Hc Hn]. split; [exact Hc|]. intros [Hh _]. exact (Hn Hh).
Qed.

Lemma missing_of_empty (header : list string) :
  missing_of header = ∅ <-> forall c, c ∈ expected_cols -> c ∈ header.
Proof.
  split.
  - intros He c Hc. destruct (decide (c ∈ header)) as [|Hn]; [assumption|].
    assert (c ∈ missing_of header) as Hm by (apply elem_of_missing_of; auto).
    rewrite He in Hm. set_solver.
  - intros Hall. apply set_eq. intros c. rewrite elem_of_missing_of.
    split; [|set_solver]. intros [Hc Hn]. destruct (Hn (Hall c Hc)).
Qed.

(** What the check answers, in terms of the names that are not empty. *)
Lemma validate_columns_cases (header : list string) (rest : list (list string)) :
  validate_columns (header :: rest) =
    if decide (NoDup (List.filter nonempty header)) then
      if decide (missing_of header = ∅) then Ok tt
      else Raise (ValueError (missing_msg header))
    else Raise (ValueError dup_msg).
Proof.
  unfold validate_columns. fold (missing_of header).
  destruct (decide (NoDup _)) as [Hnd|Hd].
  - apply size_list_to_set_NoDup in Hnd. rewrite Hnd, Nat.eqb_refl. simpl.
    destruct (decide (missing_of header = ∅)) as [He|Hne].
    + rewrite bool_decide_eq_true_2 by exact He. reflexivity.
    + rewrite bool_decide_eq_false_2 by exact Hne. reflexivity.
  - destruct (Nat.eqb_spec (size (list_to_set (List.filter nonempty header)
                                   : gset string))
                (length (List.filter nonempty header))) as [Heq|Hneq].
    + apply size_list_to_set_NoDup in Heq. contradiction.
    + reflexivity.
Qed.

Lemma filter_nonempty_idem (h : list string) :
  List.filter nonempty (List.filter nonempty h) = List.filter nonempty h.
Proof.
  induction h as [|c h IH]; simpl; [reflexivity|].
  destruct (nonempty c) eqn:E; simpl; [rewrite E|]; congruence.
Qed.

Lemma filter_nonempty_drop (h1 h2 : list string) :
  List.filter nonempty (h1 ++ "" :: h2) = List.filter nonempty (h1 ++ h2).
Proof. rewrite !List.filter_app. reflexivity. Qed.

(** The check passes exactly on the headers whose non-empty names are
    distinct and include every required column. *)
Lemma validate_columns_ok (header : list string) (rest : list (list string)) :
  validate_columns (header :: rest) = Ok tt
  <-> NoDup (List.filter nonempty header)
      /\ forall c, c ∈ expected_cols -> c ∈ List.filter nonempty header.
Proof.
  rewrite validate_columns_cases.
  destruct (decide (NoDup _)) as [Hnd|Hd].
  - destruct (decide (missing_of header = ∅)) as [He|Hne].
    + split; [|reflexivity]. intros _. split; [exact Hnd|].
      intros c Hc. apply filter_elem_of.
      split; [|apply expected_nonempty, Hc].
      apply (proj1 (missing_of_empty header) He c Hc).
    + split; [discriminate|]. intros [_ Hall]. exfalso. apply Hne.
      apply missing_of_empty. intros c Hc.
      apply (proj1 (filter_elem_of _ _ _) (Hall c Hc)).
  - split; [discriminate|]. intros [Hnd _]. contradiction.
Qed.

(** C10. The check looks only at the names that are not empty: it
    answers the same on a header and on that header without its empty
    names, so any number of empty names, wherever they stand, changes
    nothing; it reports a repeated column exactly when a non-empty name
    occurs twice; and it passes exactly when no non-empty name is repeated
    and every required column is among the non-empty names. *)
Theorem empty_names_dropped (header : list string) (rest : list (list string)) :
  validate_columns (header :: rest)
  = validate_columns (List.filter nonempty header :: rest)
  /\ (forall h1 h2 : list string,
         validate_columns ((h1 ++ "" :: h2) :: rest)
         = validate_columns ((h1 ++ h2) :: rest))
  /\ (forall n : nat,
         validate_columns ((replicate n "" ++ expected_cols) :: rest) = Ok tt)
  /\ (validate_columns (header :: rest) = Raise (ValueError dup_msg)
      <-> ~ NoDup (List.filter nonempty header))
  /\ (validate_columns (header :: rest) = Ok tt
      <-> NoDup (List.filter nonempty header)
          /\ forall c, c ∈ expected_cols -> c ∈ List.filter nonempty header).
Proof.
  assert (forall h h' : list string,
             List.filter nonempty h = List.filter nonempty h' ->
             validate_columns (h :: rest) = validate_columns (h' :: rest))
    as Hsame.
  { intros h h' E. rewrite !validate_columns_cases. unfold missing_msg, missing_of.
    rewrite E. reflexivity. }
  split; [|split; [|split; [|split]]].
  - apply Hsame. symmetry. apply filter_nonempty_idem.
  - intros h1 h2. apply Hsame, filter_nonempty_drop.
  - intros n. transitivity (validate_columns (expected_cols :: rest)).
    + apply Hsame. induction n as [|n IH]; [reflexivity|exact IH].
    + reflexivity.
  - rewrite validate_columns_cases.
    destruct (decide (NoDup _)) as [Hnd|Hd].
    + destruct (decide (missing_of header = ∅)); split;
        try discriminate; intros H; contradiction.
    + split; [intros _; exact Hd|reflexivity].
  - apply validate_columns_ok.
Qed.

(** ** Which computations create tickets *)

Definition emitted (w : world) (evs : list event) : world :=
  {| w_trace := w_trace w ++ evs;
     w_stdin := w_stdin w;
     w_jira_id := w_jira_id w;
     w_project_key := w_project_key w |}.

Lemma requests_of_app (t1 t2 : list event) :
  requests_of (t1 ++ t2) = requests_of t1 ++ requests_of t2.
Proof. apply omap_app. Qed.

Lemma posts_of_app (t1 t2 : list event) :
  posts_of (t1 ++ t2) = posts_of t1 ++ posts_of t2.
Proof. unfold posts_of. rewrite requests_of_app. apply List.filter_app. Qed.

(** A computation is quiet when it sends no POST, however it ends. *)
Definition quiet {A} (m : M A) : Prop :=
  forall w, posts_of (w_trace (snd (m w))) = posts_of (w_trace w).

Lemma quiet_ret {A} (a : A) : quiet (ret a).
Proof. intros w. reflexivity. Qed.

Lemma quiet_raise {A} (e : exn) : quiet (@raise A e).
Proof. intros w. reflexivity. Qed.

Lemma quiet_liftR {A} (r : result A) : quiet (liftR r).
Proof. intros w. reflexivity. Qed.

Lemma quiet_bind {A B} (m : M A) (k : A -> M B) :
  quiet m -> (forall a, quiet (k a)) -> quiet (bind m k).
Proof.
  intros Hm Hk w. unfold bind. specialize (Hm w).
  destruct (m w) as [[a|e] w1]; simpl in *.
  - rewrite Hk. exact Hm.
  - exact Hm.
Qed.

Lemma quiet_print (t : text) : quiet (print t).
Proof. intros w. simpl. rewrite posts_of_app. apply app_nil_r. Qed.

Lemma quiet_pprint_json (v : json) : quiet (emit (EvPPrintJson v)).
Proof. intros w. simpl. rewrite posts_of_app. apply app_nil_r. Qed.

Lemma quiet_add_jira_id t i : quiet (add_jira_id t i).
Proof. intros w. reflexivity. Qed.

Lemma quiet_jira_id t : quiet (jira_id t).
Proof. intros w. unfold jira_id. destruct (_ !! _); reflexivity. Qed.

Lemma quiet_global_project_key : quiet global_project_key.
Proof. intros w. unfold global_project_key. destruct (w_project_key w); reflexivity. Qed.

Lemma quiet_set_global_project_key pk : quiet (set_global_project_key pk).
Proof. intros w. reflexivity. Qed.

Lemma quiet_get cfg b64encode remote url params :
  quiet (get cfg b64encode remote url params).
Proof. intros w. simpl. rewrite posts_of_app. apply app_nil_r. Qed.

Lemma quiet_for_each {A} (f : A -> M unit) (l : list A) :
  (forall x, quiet (f x)) -> quiet (for_each f l).
Proof.
  intros Hf. induction l as [|x l IH]; simpl.
  - apply quiet_ret.
  - apply quiet_bind; [apply Hf|]. intros _. exact IH.
Qed.

Create HintDb quiet.
#[global] Hint Resolve quiet_ret quiet_raise quiet_liftR quiet_print
  quiet_pprint_json quiet_add_jira_id quiet_jira_id quiet_global_project_key
  quiet_set_global_project_key quiet_get : quiet.

(** Splits a computation at its binds and branches, closing the leaves
    with the hints. *)
Ltac quiet_steps :=
  repeat first
    [ solve [auto with quiet]
    | apply quiet_bind; [|intros ?]
    | apply quiet_for_each; intros ?
    | match goal with
      | |- quiet (if ?b then _ else _) => destruct b
      | |- quiet (match ?x with _ => _ end) => destruct x
      end ].

Section Quiet.

Variable cfg : config.
Variable b64encode : string -> string.
Variable remote : list request -> request -> result json.

Lemma quiet_get_create_metadata pk :
  quiet (get_create_metadata cfg b64encode remote pk).
Proof. unfold get_create_metadata. quiet_steps. Qed.

Lemma quiet_register it : quiet (register it).
Proof. unfold register. quiet_steps. Qed.

Lemma quiet_get_issue_types pk :
  quiet (get_issue_types cfg b64encode remote pk).
Proof.
  unfold get_issue_types.
  apply quiet_bind; [apply quiet_get_create_metadata|]. intros data.
  quiet_steps. apply quiet_register.
Qed.

Lemma quiet_get_create_field_metadata pk t :
  quiet (get_create_field_metadata cfg b64encode remote pk t).
Proof. unfold get_create_field_metadata. quiet_steps. Qed.

Lemma quiet_get_board_id pk ty :
  quiet (get_board_id cfg b64encode remote pk ty).
Proof. unfold get_board_id. quiet_steps. Qed.

Lemma quiet_get_current_sprint_id board :
  quiet (get_current_sprint_id cfg b64encode remote board).
Proof. unfold get_current_sprint_id. quiet_steps. Qed.

(** Nothing before the file is opened creates a ticket. *)
Lemma quiet_prelude a : quiet (prelude cfg b64encode remote a).
Proof.
  unfold prelude.
  apply quiet_bind; [quiet_steps|]. intros _.
  apply quiet_bind; [quiet_steps|]. intros _.
  apply quiet_bind; [apply quiet_get_issue_types|]. intros _.
  destruct (list_fields a).
  { apply quiet_bind; [apply quiet_get_create_field_metadata|]. intros data.
    quiet_steps. }
  destruct (add_to_sprint a); [|apply quiet_ret].
  apply quiet_bind; [quiet_steps|]. intros _.
  apply quiet_bind.
  - destruct (negb _); [|apply quiet_ret].
    apply quiet_bind; [apply quiet_get_board_id|]. intros b. apply quiet_ret.
  - intros board. apply quiet_get_current_sprint_id.
Qed.

(** When the [with] block raises, the script ends there. *)
Lemma main_read_fails fs a e w :
  read_csv fs (filename a) (priority a) = Raise e ->
  main cfg b64encode remote fs a w =
    match prelude cfg b64encode remote a w with
    | (Ok _, w1) =>
        (Raise e, emitted w1 [EvPrint [FLit "Reading CSV "; FLit (filename a)]])
    | (Raise e', w1) => (Raise e', w1)
    end.
Proof.
  intros Hr. unfold main, bind. rewrite Hr.
  destruct (prelude _ _ _ a w) as [[s|e'] w1]; reflexivity.
Qed.

End Quiet.

(** ** A header the check rejects *)

Section InvalidHeader.

Variable cfg : config.
Variable b64encode : string -> string.
Variable remote : list request -> request -> result json.

(** The message of the error a bad header is rejected with. *)
Definition rejection (header : list string) : text :=
  if decide (NoDup (List.filter nonempty header)) then missing_msg header
  else dup_msg.

(** C2, as the code has it. When a non-empty column name occurs twice in
    the header, or a required column is absent from it, the [with] block
    raises [ValueError] whatever the data records are, so no row is
    read; the script creates no ticket, and if it got as far as opening
    the file it ends with that error. The error of a header without
    repeated names carries the set of missing columns, which holds
    exactly the required columns absent from the header. *)
Theorem invalid_header_rejected fs a header rest :
  fs (filename a) = Some (header :: rest) ->
  ~ NoDup (List.filter nonempty header)
  \/ (exists c, c ∈ expected_cols /\ c ∉ header) ->
  (forall rest', validate_columns (header :: rest')
                 = Raise (ValueError (rejection header)))
  /\ read_csv fs (filename a) (priority a)
     = Raise (ValueError (rejection header))
  /\ (NoDup (List.filter nonempty header) ->
      rejection header = missing_msg header
      /\ forall c, c ∈ missing_of header <-> c ∈ expected_cols /\ c ∉ header)
  /\ forall w,
      posts_of (w_trace (snd (main cfg b64encode remote fs a w)))
      = posts_of (w_trace w)
      /\ main cfg b64encode remote fs a w =
           match prelude cfg b64encode remote a w with
           | (Ok _, w1) =>
               (Raise (ValueError (rejection header)),
                emitted w1 [EvPrint [FLit "Reading CSV "; FLit (filename a)]])
           | (Raise e, w1) => (Raise e, w1)
           end.
Proof.
  intros Hfs Hbad.
  assert (forall rest', validate_columns (header :: rest')
                        = Raise (ValueError (rejection header))) as Hval.
  { intros rest'. rewrite validate_columns_cases. unfold rejection.
    destruct (decide (NoDup _)) as [Hnd|Hd]; [|reflexivity].
    destruct (decide (missing_of header = ∅)) as [He|Hne]; [|reflexivity].
    exfalso. destruct Hbad as [Hd|(c & Hc & Hn)]; [exact (Hd Hnd)|].
    apply Hn. apply (proj1 (missing_of_empty header) He c Hc). }
  assert (read_csv fs (filename a) (priority a)
          = Raise (ValueError (rejection header))) as Hread.
  { unfold read_csv. rewrite Hfs, Hval. reflexivity. }
  split; [exact Hval|]. split; [exact Hread|]. split.
  - intros Hnd. split.
    + unfold rejection. destruct (decide (NoDup _)); [reflexivity|contradiction].
    + apply elem_of_missing_of.
  - intros w.
    pose proof (main_read_fails cfg b64encode remote fs a _ w Hread) as Hmain.
    split; [|exact Hmain].
    rewrite Hmain. pose proof (quiet_prelude cfg b64encode remote a w) as Hq.
    destruct (prelude _ _ _ a w) as [[s|e] w1]; simpl in *.
    + rewrite posts_of_app, app_nil_r. exact Hq.
    + exact Hq.
Qed.

End InvalidHeader.

Definition no_tracker : list request -> request -> result json :=
  fun _ _ => Raise (RequestFailure 401).

Definition example_args : args :=
  {| filename := "bugs.csv"; epic := None; board_id := None;
     priority := "Stop ship"; list_fields := false; add_to_sprint := false |}.

Lemma invalid_header_rejected_witness :
  let header := ["Priority"; "Title"; "Priority"] in
  let fs := fun _ : string => Some [header; ["Stop ship"; "t"; "Stop ship"]] in
  ~ NoDup (List.filter nonempty header)
  /\ read_csv fs (filename example_args) (priority example_args)
     = Raise (ValueError dup_msg).
Proof.
  intros header fs.
  assert (~ NoDup (List.filter nonempty header)) as Hd.
  { intros H. apply NoDup_cons in H as [Hn _]. apply Hn. set_solver. }
  split; [exact Hd|].
  destruct (invalid_header_rejected source_config (fun s => s) no_tracker
              fs example_args header [["Stop ship"; "t"; "Stop ship"]]
              eq_refl (or_introl Hd)) as (_ & Hread & _).
  exact Hread.
Defined.

(** A header whose two unnamed columns share the empty name, and which
    has every required column, passes the check. *)
Lemma repeated_empty_name_accepted :
  let header := [""; ""; "Priority"; "Description of issue";
                 "Additional notes"; "Platform/URL"; "Title"] in
  let fs := fun _ : string => Some [header] in
  ~ NoDup header
  /\ validate_columns [header] = Ok tt
  /\ read_csv fs "bugs.csv" "Stop ship" = Ok [].
Proof.
  intros header fs. split; [|split; reflexivity].
  intros H. apply NoDup_cons in H as [Hn _]. apply Hn. set_solver.
Qed.

(** ** Rows and the priority filter *)

Lemma fold_cells_lookup (l : list (string * string))
    (m : gmap string (option string)) (k : string) :
  is_Some (foldl (fun m p => <[fst p := Some (snd p)]> m) m l !! k)
  <-> is_Some (m !! k) \/ k ∈ map fst l.
Proof.
  revert m. induction l as [|[k' v] l IH]; intros m; simpl.
  - rewrite elem_of_nil. tauto.
  - rewrite IH, elem_of_cons, lookup_insert_is_Some'. intuition congruence.
Qed.

Lemma fold_restval_lookup (l : list string)
    (m : gmap string (option string)) (k : string) :
  is_Some (foldl (fun m k' => <[k' := None]> m) m l !! k)
  <-> is_Some (m !! k) \/ k ∈ l.
Proof.
  revert m. induction l as [|k' l IH]; intros m; simpl.
  - rewrite elem_of_nil. tauto.
  - rewrite IH, elem_of_cons, lookup_insert_is_Some'. intuition congruence.
Qed.

Lemma zip_fst_take {A B} (l : list A) (k : list B) :
  map fst (zip l k) = take (length k) l.
Proof.
  revert k. induction l as [|x l IH]; intros [|y k]; simpl; try reflexivity.
  f_equal. apply IH.
Qed.

(** Every row of the reader has a cell under every name of the header. *)
Lemma make_row_has_columns (fieldnames row : list string) (c : string) :
  c ∈ fieldnames -> is_Some (named (make_row fieldnames row) !! c).
Proof.
  intros Hc. rewrite <- (take_drop (length row) fieldnames) in Hc.
  apply elem_of_app in Hc. unfold make_row.
  destruct (length fieldnames <? length row)%nat eqn:E1; simpl.
  - apply fold_cells_lookup. right. rewrite zip_fst_take.
    apply Nat.ltb_lt in E1.
    destruct Hc as [Hc|Hc]; [exact Hc|].
    rewrite drop_ge in Hc by lia. apply elem_of_nil in Hc. destruct Hc.
  - destruct (length row <? length fieldnames)%nat eqn:E2; simpl.
    + apply fold_restval_lookup. destruct Hc as [Hc|Hc]; [left|right; exact Hc].
      apply fold_cells_lookup. right. rewrite zip_fst_take. exact Hc.
    + apply fold_cells_lookup. right. rewrite zip_fst_take.
      apply Nat.ltb_ge in E2.
      destruct Hc as [Hc|Hc]; [exact Hc|].
      rewrite drop_ge in Hc by lia. apply elem_of_nil in Hc. destruct Hc.
Qed.

Lemma DictReader_has_columns (header : list string) (rest : list (list string))
    (c : string) (row : csv_row) :
  c ∈ header -> row ∈ DictReader (header :: rest) ->
  is_Some (named row !! c).
Proof.
  intros Hc Hrow. simpl in Hrow. apply list_elem_of_In, in_map_iff in Hrow.
  destruct Hrow as (r & <- & _). apply make_row_has_columns, Hc.
Qed.

(** [row["Priority"] == priority]. *)
Definition has_priority (priority : string) (row : csv_row) : bool :=
  bool_decide (named row !! "Priority" = Some (Some priority)).

Lemma collect_acc (priority : string) (rows acc : list csv_row) :
  (forall row, row ∈ rows -> is_Some (named row !! "Priority")) ->
  collect priority rows acc
  = Ok (acc ++ List.filter (has_priority priority) rows).
Proof.
  revert acc. induction rows as [|row rows IH]; intros acc Hall; simpl.
  - rewrite app_nil_r. reflexivity.
  - destruct (Hall row) as [p Hp]; [left|].
    unfold getcell, has_priority. rewrite Hp. simpl.
    rewrite IH by (intros r Hr; apply Hall; right; exact Hr).
    destruct (decide (p = Some priority)) as [->|Hne].
    + rewrite !bool_decide_eq_true_2 by reflexivity.
      rewrite <- app_assoc. reflexivity.
    + rewrite !bool_decide_eq_false_2 by congruence. reflexivity.
Qed.

(** The whole [with] block on a file whose header passes the check. *)
Lemma read_csv_filters fs filename priority header rest :
  fs filename = Some (header :: rest) ->
  validate_columns (header :: rest) = Ok tt ->
  read_csv fs filename priority
  = Ok (List.filter (has_priority priority) (DictReader (header :: rest))).
Proof.
  intros Hfs Hval. unfold read_csv. rewrite Hfs, Hval. simpl rbind.
  rewrite collect_acc; [reflexivity|].
  intros row Hrow. apply (DictReader_has_columns header rest); [|exact Hrow].
  apply validate_columns_ok in Hval as [_ Hall].
  apply (filter_elem_of nonempty). apply Hall. left.
Qed.

(** C3. On rows that have a Priority cell, as all rows of a checked file
    do, the loop returns the rows whose Priority cell equals the requested
    value, each once and in the order of the file. *)
Theorem priority_filter (rows : list csv_row) (priority : string) :
  (forall row, row ∈ rows -> is_Some (named row !! "Priority")) ->
  collect priority rows []
  = Ok (List.filter (has_priority priority) rows).
Proof. intros Hall. apply (collect_acc priority rows [] Hall). Qed.

Definition example_header : list string :=
  ["Title"; "Priority"; "Description of issue"; "Additional notes";
   "Platform/URL"].

Definition example_row (title p : string) : csv_row :=
  make_row example_header [title; p; "crash"; ""; ""].

(** Rows of priorities Stop ship, Nice to have, Stop ship, filtered for
    Stop ship: the first and the third, in that order. *)
Lemma priority_filter_witness :
  let r1 := example_row "one" "Stop ship" in
  let r2 := example_row "two" "Nice to have" in
  let r3 := example_row "three" "Stop ship" in
  (forall row, row ∈ [r1; r2; r3] -> is_Some (named row !! "Priority"))
  /\ collect "Stop ship" [r1; r2; r3] [] = Ok [r1; r3].
Proof.
  intros r1 r2 r3.
  assert (forall row, row ∈ [r1; r2; r3] -> is_Some (named row !! "Priority"))
    as Hall.
  { intros row Hrow.
    repeat (apply elem_of_cons in Hrow as [->|Hrow]);
      [apply make_row_has_columns; right; left ..|].
    apply elem_of_nil in Hrow. destruct Hrow. }
  split; [exact Hall|].
  rewrite (priority_filter [r1; r2; r3] "Stop ship" Hall). reflexivity.
Defined.

(** ** The description of a ticket *)

Lemma append_empty_r (s : string) : s +:+ "" = s.
Proof.
  induction s as [|c s IH]; [reflexivity|].
  change (String c (s +:+ "") = String c s). f_equal. exact IH.
Qed.

(** The sections appended for the notes and for the URL of a row. *)
Definition notes_part (notes : option string) : string :=
  if cell_truthy notes then notes_section (str_opt notes) else "".

Definition url_part (url : option string) : string :=
  if cell_truthy url then url_section (str_opt url) else "".

(** C4. For a row whose description cell is a string [d], the composed
    description is [d], then the Additional notes section if the notes
    cell is not empty, then the Platform/URL section if the URL cell is not
    empty; with both cells empty it is [d] itself. The summary is the
    title cell, or [d] when the title cell is empty. *)
Theorem description_composition (row : csv_row) (d : string)
    (title notes url : option string) :
  named row !! "Description of issue" = Some (Some d) ->
  named row !! "Title" = Some title ->
  named row !! "Additional notes" = Some notes ->
  named row !! "Platform/URL" = Some url ->
  draft row
  = Ok (if cell_truthy title then title else Some d,
        Some ((d +:+ notes_part notes) +:+ url_part url))
  /\ (cell_truthy notes = false -> cell_truthy url = false ->
      draft row = Ok (if cell_truthy title then title else Some d, Some d)).
Proof.
  intros Hd Ht Hn Hu.
  assert (draft row
          = Ok (if cell_truthy title then title else Some d,
                Some ((d +:+ notes_part notes) +:+ url_part url))) as Hdraft.
  { unfold draft, getcell, notes_part, url_part. rewrite Hd, Ht, Hn, Hu. simpl.
    destruct (cell_truthy notes), (cell_truthy url); simpl;
      rewrite ?append_empty_r; reflexivity. }
  split; [exact Hdraft|].
  intros En Eu. rewrite Hdraft. unfold notes_part, url_part.
  rewrite En, Eu, !append_empty_r. reflexivity.
Qed.

(** A row with notes and a URL, and a row with neither. *)
Lemma description_composition_witness :
  let row := make_row example_header
               ["t"; "Stop ship"; "crash"; "Repro on Android"; "http://x"] in
  let bare := make_row example_header ["t"; "Stop ship"; "crash"; ""; ""] in
  draft row
  = Ok (Some "t",
        Some ("crash" +:+ nl +:+ nl +:+ "**Additional notes**:" +:+ nl
              +:+ "Repro on Android"
              +:+ nl +:+ nl +:+ "**Platform/URL**: http://x"))
  /\ draft bare = Ok (Some "t", Some "crash").
Proof.
  intros row bare. split.
  - apply (description_composition row "crash" (Some "t")
             (Some "Repro on Android") (Some "http://x")
             eq_refl eq_refl eq_refl eq_refl).
  - apply (description_composition bare "crash" (Some "t") (Some "") (Some "")
             eq_refl eq_refl eq_refl eq_refl); reflexivity.
Defined.

(** ** Boards and sprints *)

Section Boards.

Variable cfg : config.
Variable b64encode : string -> string.

(** A tracker that answers every request with the given boards (or
    sprints). *)
Definition answering (values : list json)
  : list request -> request -> result json :=
  fun _ _ => Ok (JObj [("values", JArr values)]).

Definition ambiguity_msg (n : nat) : text :=
  [FLit "Found "; FStr (JNum (Z.of_nat n)); FLit " boards: "; FLit "";
   FLit ". Try setting the --board_id option directly"].

Lemma get_board_id_run remote project_key board_type w :
  get_board_id cfg b64encode remote project_key board_type w
  = let req := {| req_method := GET;
                  req_url := [base cfg; FLit BOARD_ENDPOINT];
                  req_headers := _headers cfg b64encode;
                  req_params := [("projectKeyOrId", of_opt project_key);
                                 ("type", JStr board_type)];
                  req_data := None |} in
    (try! data := remote (requests_of (w_trace w)) req in
     try! values := py_getitem data "values" in
     try! n := py_len values in
     if negb (n =? 1)%nat then
       try! boards := py_iter values in
       try! labels := map_r board_label boards in
       Raise (ValueError
                [FLit "Found "; FStr (JNum (Z.of_nat n)); FLit " boards: ";
                 FLit (String.concat ", " labels);
                 FLit ". Try setting the --board_id option directly"])
     else
       try! board := py_getitem0 values in
       py_getitem board "id",
     emitted w [EvRequest req]).
Proof.
  unfold get_board_id, bind, get, send, liftR, raise, emitted. cbv zeta.
  destruct (remote _ _) as [data|e]; simpl; [|reflexivity].
  destruct (py_getitem data "values") as [values|e]; simpl; [|reflexivity].
  destruct (py_len values) as [n|e]; simpl; [|reflexivity].
  destruct (negb (n =? 1)%nat); simpl.
  - destruct (py_iter values) as [boards|e]; simpl; [|reflexivity].
    destruct (map_r board_label boards); reflexivity.
  - destruct (py_getitem0 values) as [board|e]; simpl; [|reflexivity].
    reflexivity.
Qed.

(** A board that has both keys makes the element expression raise. *)
Lemma board_label_TypeError (board : json) (name id : json) :
  py_getitem board "name" = Ok name -> py_getitem board "id" = Ok id ->
  board_label board = Raise TypeError.
Proof. intros Hn Hi. unfold board_label. rewrite Hn, Hi. reflexivity. Qed.

(** C5, on the code. With exactly one board [get_board_id] returns its
    id, and with no board it raises [ValueError] with the advice to pass
    the board id; but with two or more boards, each with a name and an
    id, building the list of names raises [TypeError] and the
    [ValueError] is never reached. *)
Theorem get_board_id_cases project_key board_type w
    (name id name1 id1 name2 id2 : json) (more : list json) :
  let board := JObj [("id", id); ("name", name)] in
  let board1 := JObj [("id", id1); ("name", name1)] in
  let board2 := JObj [("id", id2); ("name", name2)] in
  fst (get_board_id cfg b64encode (answering [board])
         project_key board_type w) = Ok id
  /\ fst (get_board_id cfg b64encode (answering [])
            project_key board_type w) = Raise (ValueError (ambiguity_msg 0))
  /\ fst (get_board_id cfg b64encode (answering (board1 :: board2 :: more))
            project_key board_type w) = Raise TypeError.
Proof.
  intros board board1 board2. rewrite !get_board_id_run.
  split; [reflexivity|]. split; reflexivity.
Qed.

End Boards.

Section Sprints.

Variable cfg : config.
Variable b64encode : string -> string.
Variable remote : list request -> request -> result json.

(** Two or more boards, the first with a name and an id: [TypeError],
    whatever the tracker is. *)
Lemma get_board_id_many project_key board_type w data board boards name id :
  remote (requests_of (w_trace w))
    {| req_method := GET;
       req_url := [base cfg; FLit BOARD_ENDPOINT];
       req_headers := _headers cfg b64encode;
       req_params := [("projectKeyOrId", of_opt project_key);
                      ("type", JStr board_type)];
       req_data := None |} = Ok data ->
  py_getitem data "values" = Ok (JArr (board :: boards)) ->
  boards <> [] ->
  py_getitem board "name" = Ok name ->
  py_getitem board "id" = Ok id ->
  fst (get_board_id cfg b64encode remote project_key board_type w)
  = Raise TypeError.
Proof.
  intros Hr Hv Hne Hn Hi. rewrite get_board_id_run. cbv zeta.
  rewrite Hr. simpl. rewrite Hv. simpl.
  destruct boards as [|board' boards]; [contradiction|]. simpl.
  rewrite (board_label_TypeError board name id Hn Hi). reflexivity.
Qed.

(** The request [get_current_sprint_id] sends. *)
Definition sprint_request (board_id : text) : request :=
  {| req_method := GET;
     req_url := [base cfg; FLit BOARD_ENDPOINT; FLit "/"] ++ board_id
                ++ [FLit "/sprint"];
     req_headers := _headers cfg b64encode;
     req_params := [("state", JStr "active")];
     req_data := None |}.

Definition absence_msg (project_key : json) : text :=
  [FLit "No active sprint found for "; FStr project_key].

Lemma get_current_sprint_id_active (board_id : text) (w : world)
    (kv : list (string * json)) (sprint : json) (more : list json) (id : json) :
  remote (requests_of (w_trace w)) (sprint_request board_id) = Ok (JObj kv) ->
  assoc "values" kv = Some (JArr (sprint :: more)) ->
  py_getitem sprint "id" = Ok id ->
  get_current_sprint_id cfg b64encode remote board_id w
  = (Ok id, emitted w [EvRequest (sprint_request board_id)]).
Proof.
  intros Hr Hv Hid.
  unfold get_current_sprint_id, bind, get, send, liftR, ret. cbv zeta.
  fold (sprint_request board_id). rewrite Hr. simpl. rewrite Hv. simpl.
  rewrite Hid. reflexivity.
Qed.

Lemma get_current_sprint_id_absent (board_id : text) (w : world)
    (kv : list (string * json)) (project_key : json) :
  remote (requests_of (w_trace w)) (sprint_request board_id) = Ok (JObj kv) ->
  assoc "values" kv = None \/ assoc "values" kv = Some (JArr []) ->
  w_project_key w = Some project_key ->
  get_current_sprint_id cfg b64encode remote board_id w
  = (Raise (ValueError (absence_msg project_key)),
     emitted w [EvRequest (sprint_request board_id)]).
Proof.
  intros Hr Hv Hpk.
  unfold get_current_sprint_id, bind, get, send, liftR, ret, raise,
    global_project_key. cbv zeta.
  fold (sprint_request board_id). rewrite Hr.
  destruct w as [tr inp ids g]. simpl in Hpk. subst g. simpl.
  destruct Hv as [Hv|Hv]; rewrite Hv; reflexivity.
Qed.

(** C6. When the tracker answers the sprint query with a dict whose
    [values] list is not empty, [get_current_sprint_id] returns the id of
    its first sprint; when the dict has no [values] or an empty list, it
    raises [ValueError], the message naming the global [project_key],
    which the driver has bound before the call. *)
Theorem get_current_sprint_id_cases (board_id : text) (w : world)
    (kv : list (string * json)) :
  remote (requests_of (w_trace w)) (sprint_request board_id) = Ok (JObj kv) ->
  (forall sprint more id,
      assoc "values" kv = Some (JArr (sprint :: more)) ->
      py_getitem sprint "id" = Ok id ->
      get_current_sprint_id cfg b64encode remote board_id w
      = (Ok id, emitted w [EvRequest (sprint_request board_id)]))
  /\ (forall project_key,
         assoc "values" kv = None \/ assoc "values" kv = Some (JArr []) ->
         w_project_key w = Some project_key ->
         get_current_sprint_id cfg b64encode remote board_id w
         = (Raise (ValueError (absence_msg project_key)),
            emitted w [EvRequest (sprint_request board_id)])).
Proof.
  intros Hr. split.
  - intros sprint more id. apply get_current_sprint_id_active, Hr.
  - intros project_key. apply get_current_sprint_id_absent, Hr.
Qed.

End Sprints.

Lemma get_current_sprint_id_cases_witness :
  let sprint := JObj [("id", JNum 7); ("state", JStr "active")] in
  let w := {| w_trace := []; w_stdin := []; w_jira_id := ∅;
              w_project_key := Some (JStr "DW") |} in
  get_current_sprint_id source_config (fun s => s) (answering [sprint])
    [FLit "12"] w
  = (Ok (JNum 7),
     emitted w [EvRequest (sprint_request source_config (fun s => s) [FLit "12"])])
  /\ fst (get_current_sprint_id source_config (fun s => s) (answering [])
            [FLit "12"] w)
     = Raise (ValueError (absence_msg (JStr "DW"))).
Proof.
  intros sprint w. split.
  - apply (proj1 (get_current_sprint_id_cases source_config (fun s => s)
                     (answering [sprint]) [FLit "12"] w _ eq_refl)
             sprint [] (JNum 7) eq_refl eq_refl).
  - rewrite (proj2 (get_current_sprint_id_cases source_config (fun s => s)
                      (answering []) [FLit "12"] w _ eq_refl)
               (JStr "DW") (or_intror eq_refl) eq_refl).
    reflexivity.
Defined.

(** ** Discovery of the issue types *)

Lemma by_value_value (t : IssueType) : by_value (value t) = Some t.
Proof. destruct t; reflexivity. Qed.

Lemma by_value_Some (s : string) (t : IssueType) :
  by_value s = Some t -> s = value t.
Proof.
  unfold by_value. intros H. apply find_some in H as [_ H].
  apply String.eqb_eq in H. congruence.
Qed.

(** The entry carries the name of the member [t]. *)
Definition names (entry : json) (t : IssueType) : Prop :=
  py_getitem entry "name" = Ok (JStr (value t)).

Lemma known_issue_type_names entry t id :
  known_issue_type entry = Ok (t, id)
  <-> names entry t /\ py_getitem entry "id" = Ok id.
Proof.
  unfold known_issue_type, names, IssueType_call. split.
  - destruct (py_getitem entry "name") as [[| | |s| |]|]; simpl; try discriminate.
    destruct (by_value s) as [t'|] eqn:E; simpl; try discriminate.
    destruct (py_getitem entry "id") as [i|]; simpl; try discriminate.
    intros [= <- <-]. apply by_value_Some in E. subst s. split; reflexivity.
  - intros [-> ->]. simpl. rewrite by_value_value. reflexivity.
Qed.

(** The members' ids after the loop of [get_issue_types]. *)
Definition registry_after (entries : list json) (ids : gmap IssueType json)
  : gmap IssueType json :=
  foldl (fun ids entry =>
           match known_issue_type entry with
           | Ok (t, id) => <[t := id]> ids
           | Raise _ => ids
           end) ids entries.

(** The lines the loop of [get_issue_types] prints. *)
Definition warnings (entries : list json) : list event :=
  flat_map (fun entry =>
              match known_issue_type entry, py_getitem entry "name" with
              | Raise _, Ok name =>
                  [EvPrint [FStr name; FLit " is not a known IssueType value"]]
              | _, _ => []
              end) entries.

(** An entry of the remote metadata: a dict with a name and an id. *)
Definition well_formed (entry : json) : Prop :=
  exists name id,
    py_getitem entry "name" = Ok name /\ py_getitem entry "id" = Ok id.

Lemma for_each_register (entries : list json) (w : world) :
  (forall entry, entry ∈ entries -> well_formed entry) ->
  for_each register entries w
  = (Ok tt, {| w_trace := w_trace w ++ warnings entries;
               w_stdin := w_stdin w;
               w_jira_id := registry_after entries (w_jira_id w);
               w_project_key := w_project_key w |}).
Proof.
  revert w. induction entries as [|entry entries IH]; intros w Hwf.
  - simpl. unfold ret. rewrite app_nil_r. destruct w; reflexivity.
  - destruct (Hwf entry) as (name & id & Hn & Hi); [left|].
    assert (forall e, e ∈ entries -> well_formed e) as Hwf'
      by (intros e He; apply Hwf; right; exact He).
    cbn [for_each]. unfold bind at 1.
    unfold registry_after, warnings in *. cbn [foldl flat_map].
    unfold register.
    destruct (known_issue_type entry) as [[t i]|e] eqn:E.
    + unfold add_jira_id. rewrite (IH _ Hwf'). reflexivity.
    + rewrite Hn. unfold bind, liftR, print, emit.
      rewrite (IH _ Hwf'). simpl. rewrite <- app_assoc. reflexivity.
Qed.

Lemma registry_after_untouched (entries : list json)
    (ids : gmap IssueType json) (t : IssueType) :
  (forall entry, entry ∈ entries -> ~ names entry t) ->
  registry_after entries ids !! t = ids !! t.
Proof.
  revert ids. induction entries as [|entry entries IH]; intros ids Hno;
    [reflexivity|].
  unfold registry_after in *. cbn [foldl].
  rewrite IH by (intros e He; apply Hno; right; exact He).
  destruct (known_issue_type entry) as [[t' i]|e] eqn:E; [|reflexivity].
  apply known_issue_type_names in E as [Hn _].
  apply lookup_insert_ne. intros ->. apply (Hno entry); [left|exact Hn].
Qed.

Lemma registry_after_last (pre post : list json) (entry : json)
    (ids : gmap IssueType json) (t : IssueType) (id : json) :
  names entry t -> py_getitem entry "id" = Ok id ->
  (forall later, later ∈ post -> ~ names later t) ->
  registry_after (pre ++ entry :: post) ids !! t = Some id.
Proof.
  intros Hn Hi Hpost.
  pose proof (registry_after_untouched post) as Hrest.
  unfold registry_after in *. rewrite foldl_app. cbn [foldl].
  rewrite (proj2 (known_issue_type_names entry t id) (conj Hn Hi)).
  rewrite Hrest by exact Hpost.
  apply lookup_insert_eq.
Qed.

Section Discovery.

Variable cfg : config.
Variable b64encode : string -> string.
Variable remote : list request -> request -> result json.

(** C8. When the metadata of the project lists the issue types
    [entries], each a dict with a name and an id, [get_issue_types]
    returns that list; it prints one warning for each entry whose name is
    not the value of a member, in order, and nothing else; afterwards a
    member named by some entry carries the id of the last entry that
    names it, and a member no entry names is as it was. *)
Theorem get_issue_types_discovers project_key (w w1 : world) (data : json)
    (entries : list json) :
  get_create_metadata cfg b64encode remote project_key w = (Ok data, w1) ->
  py_getitem data "issuetypes" = Ok (JArr entries) ->
  (forall entry, entry ∈ entries -> well_formed entry) ->
  exists w2,
    get_issue_types cfg b64encode remote project_key w = (Ok (JArr entries), w2)
    /\ w_trace w2 = w_trace w1 ++ warnings entries
    /\ (forall entry name,
           entry ∈ entries -> py_getitem entry "name" = Ok name ->
           (forall t, name <> JStr (value t)) ->
           EvPrint [FStr name; FLit " is not a known IssueType value"]
             ∈ warnings entries)
    /\ (forall pre entry post t id,
           entries = pre ++ entry :: post ->
           names entry t -> py_getitem entry "id" = Ok id ->
           (forall later, later ∈ post -> ~ names later t) ->
           w_jira_id w2 !! t = Some id)
    /\ (forall t, (forall entry, entry ∈ entries -> ~ names entry t) ->
           w_jira_id w2 !! t = w_jira_id w1 !! t).
Proof.
  intros Hmeta Hits Hwf. eexists. split.
  { unfold get_issue_types, bind. rewrite Hmeta. unfold liftR at 1.
    rewrite Hits. unfold liftR at 1. cbn [py_iter].
    rewrite (for_each_register entries w1 Hwf). reflexivity. }
  cbn [w_trace w_jira_id]. split; [reflexivity|]. split; [|split].
  - intros entry name Hin Hn Hunknown. unfold warnings.
    apply list_elem_of_In, in_flat_map. exists entry.
    split; [apply list_elem_of_In, Hin|].
    destruct (known_issue_type entry) as [[t i]|e] eqn:E.
    + apply known_issue_type_names in E as [Hn' _]. unfold names in Hn'.
      rewrite Hn in Hn'. injection Hn' as ->. destruct (Hunknown t eq_refl).
    + rewrite Hn. left. reflexivity.
  - intros pre entry post t id -> Hn Hi Hpost.
    apply registry_after_last; assumption.
  - intros t Hno. apply registry_after_untouched, Hno.
Qed.

End Discovery.

(** ** [get_issue] *)

Lemma insert_by_key_length {A} (k : Z) (x : A) (l : list (Z * A)) :
  length (insert_by_key k x l) = S (length l).
Proof.
  induction l as [|[k' y] l IH]; simpl; [reflexivity|].
  destruct (k <=? k'); simpl; [reflexivity|]. rewrite IH. reflexivity.
Qed.

Lemma stable_sort_length {A} (l : list (Z * A)) :
  length (stable_sort l) = length l.
Proof.
  induction l as [|[k x] l IH]; simpl; [reflexivity|].
  rewrite insert_by_key_length. f_equal. exact IH.
Qed.

Lemma map_r_length {A B} (f : A -> result B) (l : list A) (l' : list B) :
  map_r f l = Ok l' -> length l' = length l.
Proof.
  revert l'. induction l as [|x l IH]; intros l'; simpl.
  - intros [= <-]. reflexivity.
  - destruct (f x) as [y|]; simpl; [|discriminate].
    destruct (map_r f l) as [ys|]; simpl; [|discriminate].
    intros [= <-]. simpl. f_equal. apply IH. reflexivity.
Qed.

Section GetIssue.

Variable cfg : config.
Variable b64encode : string -> string.
Variable remote : list request -> request -> result json.
Variable fromisoformat : json -> result datetime.

(** Sorting keeps the number of issues, and a single issue as it is. *)
Lemma sorted_by_updated_length (issues sorted : list json) :
  sorted_by_updated fromisoformat issues = Ok sorted ->
  length sorted = length issues.
Proof.
  unfold sorted_by_updated.
  destruct (map_r (updated fromisoformat) issues) as [ks|] eqn:E; simpl;
    [|discriminate].
  destruct (uniform ks); [|discriminate]. intros [= <-].
  apply map_r_length in E.
  rewrite length_map, stable_sort_length, length_zip_with, length_map. lia.
Qed.

Lemma sorted_by_updated_single (issue : json) (sorted : list json) :
  sorted_by_updated fromisoformat [issue] = Ok sorted -> sorted = [issue].
Proof.
  unfold sorted_by_updated. simpl.
  destruct (updated fromisoformat issue) as [k|]; simpl; [|discriminate].
  intros [= <-]. reflexivity.
Qed.

(** As the specification words it: [getIssue(key)] wraps a search for
    the keys [[key]] and asserts that it has exactly one result. *)
Definition getIssue_spec (searchIssues : list string -> M (list json))
    (key : string) : M json :=
  let! results := searchIssues [key] in
  match results with
  | [result] => ret result
  | _ => raise AssertionError
  end.

(** The search with no other criterion than the keys. *)
Definition key_only_search (keys : list string) : M (list json) :=
  get_issues cfg b64encode remote fromisoformat None None false None
    (Some keys).

(** The one request a search for [key] alone sends. *)
Definition key_request (key : string) : request :=
  {| req_method := GET;
     req_url := search_url cfg;
     req_headers := _headers cfg b64encode;
     req_params := [("jql", JStr ("issueKey = " +:+ dquote +:+ key +:+ dquote))];
     req_data := None |}.

Lemma get_issues_key_only key w :
  key_only_search [key] w
  = (try! data := remote (requests_of (w_trace w)) (key_request key) in
     try! issues := py_getitem data "issues" in
     try! l := py_iter issues in
     sorted_by_updated fromisoformat l,
     emitted w [EvRequest (key_request key)]).
Proof.
  unfold key_only_search, get_issues, bind, get, send, liftR, emitted.
  cbn [jql_parts cell_truthy app String.concat w_trace w_stdin w_jira_id
       w_project_key].
  fold (key_request key).
  destruct (remote _ (key_request key)) as [data|e]; simpl; [|reflexivity].
  destruct (py_getitem data "issues") as [issues|e]; simpl; [|reflexivity].
  destruct (py_iter issues) as [l|e]; simpl; reflexivity.
Qed.

(** C9. [get_issue key] is the key-only search for [[key]] with the
    assertion that it has exactly one result: it sends the one request
    whose query is the key clause alone, returns the issue when the
    search yields one, raises [AssertionError] when the search yields
    none or several, and passes on the failure of a failing search. *)
Theorem get_issue_refines (key : string) (w : world) :
  get_issue cfg b64encode remote fromisoformat key w
  = getIssue_spec key_only_search key w
  /\ w_trace (snd (get_issue cfg b64encode remote fromisoformat key w))
     = w_trace w ++ [EvRequest (key_request key)]
  /\ fst (get_issue cfg b64encode remote fromisoformat key w)
     = match fst (key_only_search [key] w) with
       | Ok [issue] => Ok issue
       | Ok _ => Raise AssertionError
       | Raise e => Raise e
       end.
Proof.
  assert (get_issue cfg b64encode remote fromisoformat key w
          = getIssue_spec key_only_search key w) as Hspec.
  { unfold get_issue, getIssue_spec, key_only_search, bind.
    destruct (get_issues _ _ _ _ _ _ _ _ _ w) as [[issues|e] w1];
      [|reflexivity].
    destruct issues as [|issue [|issue' issues]]; reflexivity. }
  split; [exact Hspec|].
  unfold get_issue, bind. fold (key_only_search [key]).
  rewrite get_issues_key_only.
  destruct (try! data := remote _ _ in _) as [issues|e]; simpl.
  - destruct issues as [|issue [|issue' issues]]; split; reflexivity.
  - split; reflexivity.
Qed.

End GetIssue.

(** ** The confirmation loop *)

Lemma lower_empty (s : string) : lower s = "" <-> s = "".
Proof. destruct s; simpl; split; intros H; try reflexivity; discriminate. Qed.

Lemma lower_char_y (c : ascii) :
  lower_char c = "y"%char -> c = "y"%char \/ c = "Y"%char.
Proof.
  destruct c as [[] [] [] [] [] [] [] []]; intros H; vm_compute in H;
    first [discriminate H | left; reflexivity | right; reflexivity].
Qed.

Lemma lower_y (s : string) : lower s = "y" <-> s = "y" \/ s = "Y".
Proof.
  split.
  - destruct s as [|c [|c' s]]; simpl; try discriminate.
    intros [= H]. destruct (lower_char_y c H) as [->| ->]; auto.
  - intros [->| ->]; reflexivity.
Qed.

(** The answers that create the ticket: nothing, or the letter y in
    either case, with any white space around. *)
Lemma confirmed_iff (ans : string) :
  confirmed ans = true
  <-> strip ans = "" \/ strip ans = "y" \/ strip ans = "Y".
Proof.
  unfold confirmed. rewrite orb_true_iff, !String.eqb_eq, lower_y, lower_empty.
  tauto.
Qed.

Section Loop.

Variable cfg : config.
Variable b64encode : string -> string.
Variable remote : list request -> request -> result json.
Variable project_key : option string.
Variable a : args.
Variable sprint_id : json.

(** What the operator sees for a row, and the answer typed. *)
Definition shown (kw : kwargs) (ans : string) : list event :=
  [EvPrint [FLit (nl +:+ "Create a bug with the following data?")];
   EvPPrintKwargs kw; EvPrompt "Y/n > "; EvRead ans].

(** The request that creates the ticket of a draft. *)
Definition ticket_request (kw : kwargs) : request :=
  creation_request cfg b64encode
    (issue_fields (kw_project_key kw) (kw_issue_type kw) (kw_summary kw)
       JNull (kw_description kw) JNull (kw_epic_key kw) (kw_sprint_id kw)).

Definition browse_url (key : json) : text :=
  [base cfg; FLit "/browse/"; FStr key].

(** The world once the draft has been shown and the answer read. *)
Definition asked (w : world) (kw : kwargs) (rest : list string) (ans : string)
  : world :=
  {| w_trace := w_trace w ++ shown kw ans;
     w_stdin := rest;
     w_jira_id := w_jira_id w;
     w_project_key := w_project_key w |}.

Let step := process_row cfg b64encode remote project_key a sprint_id.

Lemma process_row_run row t d ans rest w :
  draft row = Ok (t, d) ->
  w_stdin w = ans :: rest ->
  let kw := kwargs_of project_key a sprint_id t d in
  step row w =
    if confirmed ans then
      match remote (requests_of (w_trace w)) (ticket_request kw) with
      | Ok resp =>
          match py_getitem resp "key" with
          | Ok key =>
              (Ok tt, emitted (asked w kw rest ans)
                        [EvRequest (ticket_request kw);
                         EvPrint (browse_url key)])
          | Raise e =>
              (Raise e, emitted (asked w kw rest ans)
                          [EvRequest (ticket_request kw)])
          end
      | Raise e =>
          (Raise e, emitted (asked w kw rest ans)
                      [EvRequest (ticket_request kw)])
      end
    else (Ok tt, emitted (asked w kw rest ans) [EvPrint [FLit "Skipping."]]).
Proof.
  intros Hd Hin kw. unfold step, process_row.
  unfold bind at 1. unfold liftR at 1. rewrite Hd. cbn [fst snd]. fold kw.
  unfold bind at 1. unfold print at 1, emit at 1.
  unfold bind at 1. unfold emit at 1.
  unfold bind at 1. unfold input, bind at 1, emit at 1.
  cbn [w_stdin w_trace w_jira_id w_project_key]. rewrite Hin.
  destruct (confirmed ans).
  - unfold bind, create_issue_kw. rewrite create_issue_run.
    cbn [w_stdin w_trace w_jira_id w_project_key].
    fold (ticket_request kw).
    rewrite <- !app_assoc. cbn [app].
    rewrite requests_of_app. cbn [requests_of omap]. rewrite app_nil_r.
    unfold emitted, asked, shown, print, emit, browse_url.
    destruct (remote _ (ticket_request kw)) as [resp|e]; simpl.
    + destruct (py_getitem resp "key") as [key|e]; simpl;
        rewrite <- ?app_assoc; reflexivity.
    + rewrite <- ?app_assoc; reflexivity.
  - unfold print, emit, emitted, asked, shown. simpl.
    rewrite <- !app_assoc. reflexivity.
Qed.

(** C7. In the loop over the matching rows, with a row whose draft
    can be built and an answer on the input: if the answer, white space
    apart, is empty or the letter y in either case, the row is shown,
    exactly one creation request is sent for it and, when the tracker
    answers with a key, its URL is printed and the loop goes on with the
    remaining rows; with any other answer the row is shown, no request
    is sent, Skipping. is printed and the loop goes on with the remaining
    rows. *)
Theorem confirmation_loop row rows t d ans rest w :
  draft row = Ok (t, d) ->
  w_stdin w = ans :: rest ->
  let kw := kwargs_of project_key a sprint_id t d in
  (confirmed ans = true
   <-> strip ans = "" \/ strip ans = "y" \/ strip ans = "Y")
  /\ (confirmed ans = true ->
      forall resp key,
        remote (requests_of (w_trace w)) (ticket_request kw) = Ok resp ->
        py_getitem resp "key" = Ok key ->
        for_each step (row :: rows) w
        = for_each step rows
            (emitted (asked w kw rest ans)
               [EvRequest (ticket_request kw); EvPrint (browse_url key)]))
  /\ (confirmed ans = false ->
      for_each step (row :: rows) w
      = for_each step rows
          (emitted (asked w kw rest ans) [EvPrint [FLit "Skipping."]])).
Proof.
  intros Hd Hin kw. split; [apply confirmed_iff|]. split.
  - intros Hc resp key Hr Hk. cbn [for_each]. unfold bind at 1.
    rewrite (process_row_run row t d ans rest w Hd Hin). fold kw.
    rewrite Hc, Hr, Hk. reflexivity.
  - intros Hc. cbn [for_each]. unfold bind at 1.
    rewrite (process_row_run row t d ans rest w Hd Hin). fold kw.
    rewrite Hc. reflexivity.
Qed.

End Loop.

Section WholeLoop.

Variable cfg : config.
Variable b64encode : string -> string.
Variable remote : list request -> request -> result json.
Variable project_key : option string.
Variable a : args.
Variable sprint_id : json.

(** The tracker creates every ticket it is asked for. *)
Hypothesis remote_creates :
  forall hist req, is_post req = true ->
    exists resp key, remote hist req = Ok resp /\ py_getitem resp "key" = Ok key.

(** The creation request of a row, when its draft can be built. *)
Definition ticket_of (row : csv_row) : list request :=
  match draft row with
  | Ok (t, d) =>
      [ticket_request cfg b64encode (kwargs_of project_key a sprint_id t d)]
  | Raise _ => []
  end.

(** Over the whole loop: every row is answered, and the tickets
    created are those of the rows whose answer confirms, one each, in
    order. *)
Lemma loop_tickets (rows : list csv_row) :
  forall (answers rest : list string) (w : world),
    length answers = length rows ->
    w_stdin w = answers ++ rest ->
    (forall row, row ∈ rows -> exists td, draft row = Ok td) ->
    exists w',
      for_each (process_row cfg b64encode remote project_key a sprint_id)
        rows w = (Ok tt, w')
      /\ w_stdin w' = rest
      /\ posts_of (w_trace w')
         = posts_of (w_trace w)
           ++ flat_map (fun p => if confirmed (snd p) then ticket_of (fst p)
                                 else [])
                (zip rows answers).
Proof.
  induction rows as [|row rows IH]; intros answers rest w Hlen Hin Hdrafts.
  - destruct answers; [|discriminate]. exists w. simpl.
    rewrite app_nil_r. auto.
  - destruct answers as [|ans answers]; [discriminate|].
    destruct (Hdrafts row) as [[t d] Hd]; [left|].
    cbn [for_each]. unfold bind at 1.
    rewrite (process_row_run cfg b64encode remote project_key a sprint_id
               row t d ans (answers ++ rest) w Hd Hin).
    cbn [zip zip_with flat_map fst snd]. unfold ticket_of at 1. rewrite Hd.
    set (kw := kwargs_of project_key a sprint_id t d).
    assert (forall r, r ∈ rows -> exists td, draft r = Ok td) as Hdrafts'
      by (intros r Hr; apply Hdrafts; right; exact Hr).
    injection Hlen as Hlen.
    destruct (confirmed ans).
    + destruct (remote_creates (requests_of (w_trace w))
                  (ticket_request cfg b64encode kw) eq_refl)
        as (resp & key & -> & ->).
      destruct (IH answers rest
                  (emitted (asked w kw (answers ++ rest) ans)
                     [EvRequest (ticket_request cfg b64encode kw);
                      EvPrint (browse_url cfg key)]) Hlen eq_refl Hdrafts')
        as (w' & Hrun & Hrest & Hposts).
      exists w'. split; [exact Hrun|]. split; [exact Hrest|].
      rewrite Hposts. cbn [emitted asked w_trace].
      rewrite !posts_of_app. cbn. rewrite app_nil_r, <- app_assoc.
      reflexivity.
    + destruct (IH answers rest
                  (emitted (asked w kw (answers ++ rest) ans)
                     [EvPrint [FLit "Skipping."]]) Hlen eq_refl Hdrafts')
        as (w' & Hrun & Hrest & Hposts).
      exists w'. split; [exact Hrun|]. split; [exact Hrest|].
      rewrite Hposts. cbn [emitted asked w_trace].
      rewrite !posts_of_app. cbn. rewrite !app_nil_r. reflexivity.
Qed.

End WholeLoop.

(** ** The global [project_key] at the time of the sprint query *)

(** A computation keeps the global [project_key] as it finds it. *)
Definition keeps {A} (m : M A) : Prop :=
  forall w, w_project_key (snd (m w)) = w_project_key w.

Lemma keeps_ret {A} (x : A) : keeps (ret x).
Proof. intros w. reflexivity. Qed.

Lemma keeps_raise {A} (e : exn) : keeps (@raise A e).
Proof. intros w. reflexivity. Qed.

Lemma keeps_liftR {A} (r : result A) : keeps (liftR r).
Proof. intros w. reflexivity. Qed.

Lemma keeps_bind {A B} (m : M A) (k : A -> M B) :
  keeps m -> (forall x, keeps (k x)) -> keeps (bind m k).
Proof.
  intros Hm Hk w. unfold bind. specialize (Hm w).
  destruct (m w) as [[x|e] w1]; simpl in *.
  - rewrite Hk. exact Hm.
  - exact Hm.
Qed.

Lemma keeps_emit (e : event) : keeps (emit e).
Proof. intros w. reflexivity. Qed.

Lemma keeps_add_jira_id t i : keeps (add_jira_id t i).
Proof. intros w. reflexivity. Qed.

Lemma keeps_get cfg b64encode remote url params :
  keeps (get cfg b64encode remote url params).
Proof. intros w. reflexivity. Qed.

Lemma keeps_for_each {A} (f : A -> M unit) (l : list A) :
  (forall x, keeps (f x)) -> keeps (for_each f l).
Proof.
  intros Hf. induction l as [|x l IH]; simpl.
  - apply keeps_ret.
  - apply keeps_bind; [apply Hf|]. intros _. exact IH.
Qed.

Create HintDb keeps.
#[global] Hint Resolve keeps_ret keeps_raise keeps_liftR keeps_emit
  keeps_add_jira_id keeps_get : keeps.

Ltac keeps_steps :=
  repeat first
    [ solve [auto with keeps]
    | apply keeps_bind; [|intros ?]
    | apply keeps_for_each; intros ?
    | match goal with
      | |- keeps (print _) => apply keeps_emit
      | |- keeps (if ?b then _ else _) => destruct b
      | |- keeps (match ?x with _ => _ end) => destruct x
      end ].

Section DriverSprint.

Variable cfg : config.
Variable b64encode : string -> string.
Variable remote : list request -> request -> result json.

Lemma keeps_get_issue_types pk :
  keeps (get_issue_types cfg b64encode remote pk).
Proof.
  unfold get_issue_types, get_create_metadata. keeps_steps.
  unfold register. keeps_steps.
Qed.

(** The world in which the driver discovers the issue types. *)
Definition at_discovery (w : world) : world :=
  snd ((run! (if negb (cell_truthy (PROJECT_KEY cfg))
                 || negb (cell_truthy (JIRA_TOKEN cfg))
              then print [FLit "Set your API token and project in `Config`"]
              else ret tt) in
        set_global_project_key (of_opt (PROJECT_KEY cfg))) w).

(** In the driver the global is bound when the sprint is looked up: with
    an explicit board and no active sprint the run ends with the
    [ValueError] of [get_current_sprint_id], not with [NameError]. *)
Lemma prelude_no_active_sprint a board w its w1 kv :
  list_fields a = false -> add_to_sprint a = true ->
  board_id a = Some board -> board <> "" ->
  get_issue_types cfg b64encode remote (PROJECT_KEY cfg) (at_discovery w)
  = (Ok its, w1) ->
  remote (requests_of (w_trace w1))
    (sprint_request cfg b64encode [FLit board]) = Ok (JObj kv) ->
  assoc "values" kv = None \/ assoc "values" kv = Some (JArr []) ->
  fst (prelude cfg b64encode remote a w)
  = Raise (ValueError (absence_msg (of_opt (PROJECT_KEY cfg)))).
Proof.
  intros Hlf Hsp Hb Hne Hits Hr Hv.
  assert (w_project_key w1 = Some (of_opt (PROJECT_KEY cfg))) as Hpk.
  { pose proof (keeps_get_issue_types (PROJECT_KEY cfg) (at_discovery w)) as Hk.
    rewrite Hits in Hk. simpl in Hk. rewrite Hk. unfold at_discovery, bind.
    destruct (negb _ || negb _); reflexivity. }
  assert (prelude cfg b64encode remote a w
          = get_current_sprint_id cfg b64encode remote [FLit board]
              (emitted w1 [EvPrint [FLit "Getting current sprint..."]]))
    as Hpre.
  { unfold prelude. rewrite Hlf, Hsp, Hb. unfold at_discovery in Hits.
    unfold bind in *.
    destruct (negb (cell_truthy (PROJECT_KEY cfg))
              || negb (cell_truthy (JIRA_TOKEN cfg)));
      simpl in Hits |- *; rewrite Hits; simpl;
      apply String.eqb_neq in Hne; rewrite Hne; reflexivity. }
  rewrite Hpre.
  rewrite (get_current_sprint_id_absent cfg b64encode remote [FLit board]
             (emitted w1 [EvPrint [FLit "Getting current sprint..."]]) kv
             (of_opt (PROJECT_KEY cfg))); [reflexivity| |exact Hv|exact Hpk].
  simpl. rewrite requests_of_app, app_nil_r. exact Hr.
Qed.

End DriverSprint.

(** ** A run of the script *)

(** A tracker with one Scrum board, one active sprint and a project DW
    that has the issue types Bug and Spike; it files every ticket under
    the key DW-1. *)
Definition example_tracker : list request -> request -> result json :=
  fun _ r =>
    match req_method r with
    | POST => Ok (JObj [("key", JStr "DW-1")])
    | GET =>
        match req_url r with
        | [_; _; FLit "/createmeta"] =>
            Ok (JObj
                  [("projects",
                    JArr [JObj [("key", JStr "XX")];
                          JObj [("key", JStr "DW");
                                ("issuetypes",
                                 JArr [JObj [("name", JStr "Bug");
                                             ("id", JStr "10004")];
                                       JObj [("name", JStr "Spike");
                                             ("id", JStr "1")]])]])])
        | [_; FLit "/rest/agile/1.0/board"] =>
            Ok (JObj [("values", JArr [JObj [("id", JNum 3);
                                             ("name", JStr "DW board")]])])
        | _ => Ok (JObj [("values", JArr [JObj [("id", JNum 42)]])])
        end
    end.

Definition example_file (_ : string) : option (list (list string)) :=
  Some [example_header;
        ["one"; "Stop ship"; "crash"; "Repro on Android"; "http://x"];
        ["two"; "Nice to have"; "typo"; ""; ""];
        [];
        [""; "Stop ship"; "freeze"; ""; ""]].

Definition example_world (answers : list string) : world :=
  {| w_trace := []; w_stdin := answers; w_jira_id := ∅;
     w_project_key := None |}.

Definition sprint_args : args :=
  {| filename := "bugs.csv"; epic := Some "DW-9"; board_id := None;
     priority := "Stop ship"; list_fields := false; add_to_sprint := true |}.

(** Three rows, two of the requested priority; the operator confirms the
    first and declines the second: one ticket is created, with the composed
    description, the epic and the sprint. *)
Example one_ticket_created :
  let run := main source_config (fun s => s) example_tracker example_file
               sprint_args (example_world ["y"; "n"]) in
  fst run = Ok tt
  /\ w_stdin (snd run) = []
  /\ w_jira_id (snd run) !! BUG = Some (JStr "10004")
  /\ map req_data (posts_of (w_trace (snd run)))
     = [Some (JObj
          [("fields",
            JObj [("project", JObj [("key", JStr "DW")]);
                  ("issuetype", JObj [("name", JStr "Bug")]);
                  ("summary", JStr "one");
                  ("description",
                   JStr ("crash" +:+ nl +:+ nl +:+ "**Additional notes**:"
                         +:+ nl +:+ "Repro on Android" +:+ nl +:+ nl
                         +:+ "**Platform/URL**: http://x"));
                  ("customfield_10008", JStr "DW-9");
                  ("customfield_10010", JNum 42)])])].
Proof. vm_compute. repeat split; reflexivity. Qed.

Lemma confirmation_loop_witness :
  let row := example_row "one" "Stop ship" in
  let kw := kwargs_of (Some "DW") example_args JNull (Some "one") (Some "crash") in
  let step := process_row source_config (fun s => s) example_tracker
                (Some "DW") example_args JNull in
  let w := example_world [" Y "; "no"] in
  draft row = Ok (Some "one", Some "crash")
  /\ confirmed " Y " = true
  /\ for_each step [row; row] w
     = for_each step [row]
         (emitted (asked w kw ["no"] " Y ")
            [EvRequest (ticket_request source_config (fun s => s) kw);
             EvPrint (browse_url source_config (JStr "DW-1"))]).
Proof.
  intros row kw step w. split; [reflexivity|]. split; [reflexivity|].
  apply (proj1 (proj2 (confirmation_loop source_config (fun s => s)
                         example_tracker (Some "DW") example_args JNull
                         row [row] (Some "one") (Some "crash") " Y " ["no"] w
                         eq_refl eq_refl))
           eq_refl (JObj [("key", JStr "DW-1")]) (JStr "DW-1") eq_refl eq_refl).
Defined.

Lemma get_issue_types_discovers_witness :
  let bug := JObj [("name", JStr "Bug"); ("id", JStr "10004")] in
  let spike := JObj [("name", JStr "Spike"); ("id", JStr "1")] in
  exists w2,
    get_issue_types source_config (fun s => s) example_tracker (Some "DW")
      (example_world [])
    = (Ok (JArr [bug; spike]), w2)
    /\ w_jira_id w2 !! BUG = Some (JStr "10004")
    /\ w_jira_id w2 !! EPIC = None
    /\ EvPrint [FStr (JStr "Spike"); FLit " is not a known IssueType value"]
         ∈ w_trace w2.
Proof.
  intros bug spike.
  destruct (get_issue_types_discovers source_config (fun s => s)
              example_tracker (Some "DW") (example_world [])
              (snd (get_create_metadata source_config (fun s => s)
                      example_tracker (Some "DW") (example_world [])))
              (JObj [("key", JStr "DW"); ("issuetypes", JArr [bug; spike])])
              [bug; spike] eq_refl eq_refl)
    as (w2 & Hrun & Htrace & Hwarn & Hlast & Hkeep).
  { intros entry Hin.
    apply elem_of_cons in Hin as [->|Hin];
      [|apply elem_of_cons in Hin as [->|Hin]].
    - exists (JStr "Bug"), (JStr "10004"). split; reflexivity.
    - exists (JStr "Spike"), (JStr "1"). split; reflexivity.
    - apply elem_of_nil in Hin. destruct Hin. }
  exists w2. split; [exact Hrun|]. split; [|split].
  - apply (Hlast [] bug [spike] BUG (JStr "10004") eq_refl eq_refl eq_refl).
    intros later Hin. apply elem_of_cons in Hin as [->|Hin].
    + discriminate.
    + apply elem_of_nil in Hin. destruct Hin.
  - rewrite (Hkeep EPIC); [reflexivity|].
    intros entry Hin.
    apply elem_of_cons in Hin as [->|Hin];
      [|apply elem_of_cons in Hin as [->|Hin]]; try discriminate.
    apply elem_of_nil in Hin. destruct Hin.
  - rewrite Htrace. apply elem_of_app. right.
    apply (Hwarn spike (JStr "Spike")); [right; left|reflexivity|].
    intros []; discriminate.
Defined.


(** * Further properties of the script *)

(** ** The [IssueType] enumeration *)

(** [IssueType(v)] succeeds exactly on the [value] of a member, and gives
    that member back: the values are pairwise distinct. *)
Theorem IssueType_call_value (v : json) (t : IssueType) :
  IssueType_call v = Ok t <-> v = JStr (value t).
Proof.
  split.
  - unfold IssueType_call. destruct v as [| | |s| |]; try discriminate.
    destruct (by_value s) as [t'|] eqn:E; [|discriminate].
    intros [= <-]. apply by_value_Some in E. congruence.
  - intros ->. simpl. rewrite by_value_value. reflexivity.
Qed.

(** ** Field metadata *)

Section FieldMetadata.

Variable cfg : config.
Variable b64encode : string -> string.
Variable remote : list request -> request -> result json.

(** Before discovery has stored an id on the member,
    [get_create_field_metadata] raises [AttributeError] while it builds the
    URL: nothing is sent and nothing is printed. *)
Theorem field_metadata_needs_discovery project_key (t : IssueType) (w : world) :
  w_jira_id w !! t = None ->
  get_create_field_metadata cfg b64encode remote project_key t w
  = (Raise AttributeError, w).
Proof.
  intros Hno. unfold get_create_field_metadata, bind, jira_id.
  rewrite Hno. reflexivity.
Qed.

(** The request for the fields of an issue type whose id is [jid]. *)
Definition fields_request (project_key : option string) (jid : json) : request :=
  {| req_method := GET;
     req_url := [base cfg; FLit "/rest/api/3/issue/createmeta/";
                 FStr (of_opt project_key); FLit "/issuetypes/"; FStr jid];
     req_headers := _headers cfg b64encode;
     req_params := [];
     req_data := None |}.

(** [f["required"]] is truthy. *)
Definition is_required (f : json) : bool :=
  match py_getitem f "required" with
  | Ok r => py_truthy r
  | Raise _ => false
  end.

Lemma field_summary_ok (f out : json) :
  field_summary f = Ok out ->
  exists name key required ty operations,
    py_getitem f "name" = Ok name /\ py_getitem f "key" = Ok key
    /\ py_getitem f "required" = Ok required
    /\ out = JObj [("name", name); ("key", key); ("required", required);
                   ("schemaType", ty); ("operations", operations)].
Proof.
  unfold field_summary.
  destruct (py_getitem f "name") as [name|]; simpl; [|discriminate].
  destruct (py_getitem f "key") as [key|]; simpl; [|discriminate].
  destruct (py_getitem f "required") as [required|]; simpl; [|discriminate].
  destruct (py_getitem f "schema") as [schema|]; simpl; [|discriminate].
  destruct (py_getitem schema "type") as [ty|]; simpl; [|discriminate].
  destruct (py_getitem f "operations") as [operations|]; simpl; [|discriminate].
  intros [= <-]. exists name, key, required, ty, operations. auto.
Qed.

Lemma required_fields_ok (fs out : list json) :
  map_r field_summary fs = Ok out ->
  filter_r (fun f => try! r := py_getitem f "required" in Ok (py_truthy r)) fs
  = Ok (List.filter is_required fs)
  /\ exists keys,
       map_r (fun f => py_getitem f "key") (List.filter is_required fs) = Ok keys.
Proof.
  revert out. induction fs as [|f fs IH]; intros out.
  - intros _. split; [reflexivity|]. exists []. reflexivity.
  - cbn [map_r filter_r List.filter].
    destruct (field_summary f) as [o|] eqn:Ef; simpl; [|discriminate].
    destruct (map_r field_summary fs) as [os|] eqn:Efs; simpl; [|discriminate].
    intros _. destruct (IH os eq_refl) as [Hfilter [keys Hkeys]].
    apply field_summary_ok in Ef
      as (name & key & required & ty & ops & _ & Hk & Hr & _).
    assert (is_required f = py_truthy required) as Hreq
      by (unfold is_required; rewrite Hr; reflexivity).
    rewrite Hreq, Hr, Hfilter. simpl. split; [reflexivity|].
    destruct (py_truthy required).
    + cbn [map_r]. rewrite Hk, Hkeys. simpl. eexists. reflexivity.
    + exists keys. exact Hkeys.
Qed.

(** Once the member has an id, and the tracker answers with fields that
    each have a name, a key, a required flag, a schema type and operations,
    [get_create_field_metadata] sends one request, prints the keys of the
    required fields and returns one summary per field, in the order of the
    answer. *)
Theorem field_metadata_summaries project_key (t : IssueType) (w : world)
    (jid data : json) (fs out : list json) :
  w_jira_id w !! t = Some jid ->
  remote (requests_of (w_trace w)) (fields_request project_key jid) = Ok data ->
  py_getitem data "fields" = Ok (JArr fs) ->
  map_r field_summary fs = Ok out ->
  exists keys,
    map_r (fun f => py_getitem f "key") (List.filter is_required fs) = Ok keys
    /\ length out = length fs
    /\ get_create_field_metadata cfg b64encode remote project_key t w
       = (Ok (JArr out),
          emitted w [EvRequest (fields_request project_key jid);
                     EvPrint [FLit "Required fields: "; FStr (JArr keys)]]).
Proof.
  intros Hid Hr Hf Hout.
  destruct (required_fields_ok fs out Hout) as [Hfilter [keys Hkeys]].
  exists keys. split; [exact Hkeys|]. split; [apply (map_r_length _ _ _ Hout)|].
  unfold get_create_field_metadata, bind, jira_id, get, send, liftR, print,
    emit, ret, emitted.
  rewrite Hid. fold (fields_request project_key jid). rewrite Hr. simpl.
  rewrite Hf. simpl. rewrite Hfilter. simpl. rewrite Hkeys. simpl.
  rewrite Hout. simpl. rewrite <- app_assoc. reflexivity.
Qed.

End FieldMetadata.

(** ** Drafts that cannot be built *)

(** For a row that has the four cells the driver reads: the draft fails,
    with [TypeError], exactly when the description cell is [None] (a
    record shorter than the header) and the notes or the URL cell is not
    empty; a [None] description with nothing to append goes through as
    [None]. *)
Theorem draft_outcome (row : csv_row) (d title notes url : option string) :
  named row !! "Description of issue" = Some d ->
  named row !! "Title" = Some title ->
  named row !! "Additional notes" = Some notes ->
  named row !! "Platform/URL" = Some url ->
  draft row
  = match d with
    | Some s =>
        Ok (if cell_truthy title then title else d,
            Some ((s +:+ notes_part notes) +:+ url_part url))
    | None =>
        if cell_truthy notes || cell_truthy url then Raise TypeError
        else Ok (if cell_truthy title then title else None, None)
    end.
Proof.
  intros Hd Ht Hn Hu. unfold draft, getcell, notes_part, url_part.
  rewrite Hd, Ht, Hn, Hu. simpl.
  destruct d as [s|]; destruct (cell_truthy notes), (cell_truthy url); simpl;
    rewrite ?append_empty_r; reflexivity.
Qed.

Lemma draft_outcome_witness :
  let row := make_row ["Additional notes"; "Title"; "Priority"; "Platform/URL";
                       "Description of issue"]
               ["only on Android"; "t"; "Stop ship"] in
  draft row = Raise TypeError.
Proof.
  intros row.
  apply (draft_outcome row None (Some "t") (Some "only on Android") None
           eq_refl eq_refl eq_refl eq_refl).
Defined.

(** ** Answers *)

Lemma rstrip_space_r (s : string) (c : ascii) :
  is_space c = true -> rstrip (s +:+ String c "") = rstrip s.
Proof.
  intros Hc. induction s as [|x s IH].
  - simpl. rewrite Hc. reflexivity.
  - change (String x s +:+ String c "") with (String x (s +:+ String c "")).
    cbn [rstrip]. rewrite IH. reflexivity.
Qed.

Lemma lstrip_space_r (s : string) (c : ascii) :
  is_space c = true ->
  lstrip (s +:+ String c "") = lstrip s +:+ String c ""
  \/ (lstrip (s +:+ String c "") = "" /\ lstrip s = "").
Proof.
  intros Hc. induction s as [|x s IH].
  - right. simpl. rewrite Hc. auto.
  - change (String x s +:+ String c "") with (String x (s +:+ String c "")).
    cbn [lstrip]. destruct (is_space x); [exact IH|]. left. reflexivity.
Qed.

Lemma strip_space_r (s : string) (c : ascii) :
  is_space c = true -> strip (s +:+ String c "") = strip s.
Proof.
  intros Hc. unfold strip.
  destruct (lstrip_space_r s c Hc) as [->|[-> ->]]; [|reflexivity].
  apply rstrip_space_r, Hc.
Qed.

(** White space before or after the answer never changes what the driver
    does with it. *)
Theorem confirmed_ignores_space (ans : string) (c : ascii) :
  is_space c = true ->
  confirmed (String c ans) = confirmed ans
  /\ confirmed (ans +:+ String c "") = confirmed ans.
Proof.
  intros Hc. unfold confirmed. split.
  - unfold strip. cbn [lstrip]. rewrite Hc. reflexivity.
  - rewrite strip_space_r by exact Hc. reflexivity.
Qed.

Lemma confirmed_ignores_space_witness :
  confirmed (String "009"%char "y") = confirmed "y"
  /\ confirmed ("y" +:+ String "009"%char "") = confirmed "y".
Proof. apply (confirmed_ignores_space "y" "009"%char eq_refl). Defined.

Lemma lower_length (s : string) : String.length (lower s) = String.length s.
Proof. induction s as [|c s IH]; simpl; [reflexivity|]. rewrite IH. reflexivity. Qed.

(** An answer of two or more characters, white space apart, skips the
    row: spelling out yes does not create the ticket. *)
Theorem long_answer_declines (ans : string) :
  (2 <= String.length (strip ans))%nat -> confirmed ans = false.
Proof.
  intros Hlen. unfold confirmed. rewrite <- lower_length in Hlen.
  destruct (lower (strip ans)) as [|c [|c' s]]; simpl in Hlen; try lia.
  apply orb_false_intro; apply String.eqb_neq; discriminate.
Qed.

Lemma long_answer_declines_witness : confirmed "yes" = false.
Proof. apply (long_answer_declines "yes"). simpl. lia. Defined.

(** ** Rows that end the loop early *)

Section LoopEdges.

Variable cfg : config.
Variable b64encode : string -> string.
Variable remote : list request -> request -> result json.
Variable project_key : option string.
Variable a : args.
Variable sprint_id : json.

(** When the input ends before a row has been answered, the row is shown,
    [input] raises [EOFError] and the loop stops there: no request is sent
    for that row or for any later one. *)
Theorem loop_stops_at_end_of_input row rows t d w :
  draft row = Ok (t, d) ->
  w_stdin w = [] ->
  let kw := kwargs_of project_key a sprint_id t d in
  for_each (process_row cfg b64encode remote project_key a sprint_id)
    (row :: rows) w
  = (Raise EOFError,
     emitted w [EvPrint [FLit (nl +:+ "Create a bug with the following data?")];
                EvPPrintKwargs kw; EvPrompt "Y/n > "]).
Proof.
  intros Hd Hin kw. destruct w as [tr inp ids g]. simpl in Hin. subst inp.
  cbn [for_each]. unfold process_row.
  unfold bind, liftR, print, emit, input, bind. rewrite Hd. simpl.
  unfold emitted. simpl. rewrite <- !app_assoc. reflexivity.
Qed.

(** When the tracker refuses the ticket of a confirmed row, the failure
    ends the loop: the rows after it are neither shown nor asked about,
    and the answers meant for them stay unread. *)
Theorem loop_stops_at_failure row rows t d ans rest w e :
  draft row = Ok (t, d) ->
  w_stdin w = ans :: rest ->
  confirmed ans = true ->
  let kw := kwargs_of project_key a sprint_id t d in
  remote (requests_of (w_trace w)) (ticket_request cfg b64encode kw) = Raise e ->
  for_each (process_row cfg b64encode remote project_key a sprint_id)
    (row :: rows) w
  = (Raise e,
     emitted (asked w kw rest ans) [EvRequest (ticket_request cfg b64encode kw)]).
Proof.
  intros Hd Hin Hc kw Hr. cbn [for_each]. unfold bind at 1.
  rewrite (process_row_run cfg b64encode remote project_key a sprint_id
             row t d ans rest w Hd Hin).
  fold kw. rewrite Hc, Hr. reflexivity.
Qed.

End LoopEdges.

Lemma loop_stops_at_end_of_input_witness :
  let row := example_row "one" "Stop ship" in
  fst (for_each (process_row source_config (fun s => s) example_tracker
                   (Some "DW") example_args JNull)
         [row; row] (example_world []))
  = Raise EOFError.
Proof.
  intros row.
  rewrite (loop_stops_at_end_of_input source_config (fun s => s)
             example_tracker (Some "DW") example_args JNull row [row]
             (Some "one") (Some "crash") (example_world []) eq_refl eq_refl).
  reflexivity.
Defined.

Lemma loop_stops_at_failure_witness :
  let row := example_row "one" "Stop ship" in
  let run := for_each (process_row source_config (fun s => s) no_tracker
                         (Some "DW") example_args JNull)
               [row; row] (example_world ["y"; "y"]) in
  fst run = Raise (RequestFailure 401) /\ w_stdin (snd run) = ["y"].
Proof.
  intros row run. subst run.
  rewrite (loop_stops_at_failure source_config (fun s => s) no_tracker
             (Some "DW") example_args JNull row [row] (Some "one")
             (Some "crash") "y" ["y"] (example_world ["y"; "y"])
             (RequestFailure 401) eq_refl eq_refl eq_refl eq_refl).
  split; reflexivity.
Defined.

(** ** Cells of a row *)

Lemma fold_cells_other (l : list (string * string))
    (m : gmap string (option string)) (k : string) :
  k ∉ map fst l ->
  foldl (fun m p => <[fst p := Some (snd p)]> m) m l !! k = m !! k.
Proof.
  revert m. induction l as [|[k' v] l IH]; intros m Hk; [reflexivity|].
  cbn [foldl map fst snd] in *. apply not_elem_of_cons in Hk as [Hne Hk].
  rewrite IH by exact Hk. apply lookup_insert_ne. congruence.
Qed.

Lemma fold_restval_cases (l : list string)
    (m : gmap string (option string)) (k : string) :
  foldl (fun m k' => <[k' := None]> m) m l !! k
  = if decide (k ∈ l) then Some None else m !! k.
Proof.
  revert m. induction l as [|k' l IH]; intros m; cbn [foldl].
  - destruct (decide (k ∈ [])) as [H|_]; [|reflexivity].
    apply elem_of_nil in H. destruct H.
  - rewrite IH.
    destruct (decide (k ∈ l)) as [Hin|Hnin].
    + rewrite decide_True by (right; exact Hin). reflexivity.
    + destruct (decide (k = k')) as [->|Hne].
      * rewrite decide_True by left. apply lookup_insert_eq.
      * rewrite decide_False
          by (intros H; apply elem_of_cons in H as [?|?]; contradiction).
        apply lookup_insert_ne. congruence.
Qed.

Lemma fold_cells_values (l : list (string * string))
    (m : gmap string (option string)) (k : string) :
  (forall x, m !! k = Some x -> is_Some x) ->
  forall x,
    foldl (fun m p => <[fst p := Some (snd p)]> m) m l !! k = Some x ->
    is_Some x.
Proof.
  revert m. induction l as [|[k' v] l IH]; intros m Hm x; cbn [foldl fst snd].
  - apply Hm.
  - apply IH. intros y. destruct (decide (k' = k)) as [->|Hne].
    + rewrite lookup_insert_eq. intros [= <-]. eexists. reflexivity.
    + rewrite lookup_insert_ne by exact Hne. apply Hm.
Qed.

Lemma not_in_later (header : list string) (c : string) (i n : nat) :
  (forall j, (i < j)%nat -> header !! j <> Some c) ->
  (i < n)%nat -> c ∉ drop n header.
Proof.
  intros Hlast Hn Hin. apply list_elem_of_lookup in Hin as [j Hj].
  rewrite lookup_drop in Hj. apply (Hlast (n + j)%nat); [lia|exact Hj].
Qed.

Lemma zip_middle (header record : list string) (i : nat) (c v : string) :
  header !! i = Some c -> record !! i = Some v ->
  zip header record
  = zip (take i header) (take i record)
    ++ (c, v) :: zip (drop (S i) header) (drop (S i) record).
Proof.
  intros Hc Hv.
  pose proof (lookup_lt_Some _ _ _ Hc) as Hi.
  pose proof (lookup_lt_Some _ _ _ Hv) as Hi'.
  rewrite <- (take_drop_middle header i c Hc) at 1.
  rewrite <- (take_drop_middle record i v Hv) at 1.
  rewrite zip_with_app by (rewrite !length_take; lia).
  reflexivity.
Qed.

(** The cell at the place of a column is found under the name of the
    column, provided the name does not occur again further right: of
    columns that share a name, the rightmost is the one read. *)
Theorem make_row_lookup (header record : list string) (i : nat)
    (c v : string) :
  header !! i = Some c ->
  record !! i = Some v ->
  (forall j, (i < j)%nat -> header !! j <> Some c) ->
  named (make_row header record) !! c = Some (Some v).
Proof.
  intros Hc Hv Hlast.
  pose proof (lookup_lt_Some _ _ _ Hc) as Hi.
  pose proof (lookup_lt_Some _ _ _ Hv) as Hi'.
  assert (foldl (fun m p => <[fst p := Some (snd p)]> m)
            (∅ : gmap string (option string)) (zip header record) !! c
          = Some (Some v)) as Hd.
  { rewrite (zip_middle header record i c v Hc Hv).
    rewrite foldl_app. cbn [foldl fst snd].
    rewrite fold_cells_other.
    - apply lookup_insert_eq.
    - rewrite zip_fst_take. intros Hin. apply subseteq_take in Hin.
      revert Hin. apply (not_in_later header c i (S i) Hlast). lia. }
  unfold make_row.
  destruct (length header <? length record)%nat; [exact Hd|].
  destruct (length record <? length header)%nat; [|exact Hd].
  cbn [named]. rewrite fold_restval_cases.
  rewrite decide_False; [exact Hd|].
  apply (not_in_later header c i (length record) Hlast Hi').
Qed.

Lemma make_row_lookup_witness :
  named (make_row ["Title"; "Priority"; "Title"] ["old"; "Stop ship"; "new"])
    !! "Title" = Some (Some "new").
Proof.
  apply (make_row_lookup ["Title"; "Priority"; "Title"]
           ["old"; "Stop ship"; "new"] 2 "Title" "new" eq_refl eq_refl).
  intros [|[|[|j]]] Hj; try lia; discriminate.
Defined.

(** A record shorter than the header leaves [None] under every column
    it does not reach, also under a name that an earlier column of the
    record had filled. *)
Theorem make_row_short (header record : list string) (c : string) :
  c ∈ drop (length record) header ->
  named (make_row header record) !! c = Some None.
Proof.
  intros Hin.
  assert (length record < length header)%nat as Hlt.
  { destruct (decide (length record < length header)%nat) as [|Hge];
      [assumption|].
    rewrite drop_ge in Hin by lia. apply elem_of_nil in Hin. destruct Hin. }
  unfold make_row.
  destruct (Nat.ltb_spec (length header) (length record)); [lia|].
  destruct (Nat.ltb_spec (length record) (length header)); [|lia].
  cbn [named]. rewrite fold_restval_cases. rewrite decide_True by exact Hin.
  reflexivity.
Qed.

Lemma make_row_short_witness :
  named (make_row ["Title"; "Priority"; "Title"] ["old"; "Stop ship"])
    !! "Title" = Some None.
Proof.
  apply (make_row_short ["Title"; "Priority"; "Title"] ["old"; "Stop ship"]).
  simpl. left.
Defined.

(** Empty records between the data records make no difference to what
    is read from the file. *)
Theorem blank_records_ignored (fs fs' : string -> option (list (list string)))
    (filename priority : string) (header : list string)
    (before after : list (list string)) :
  fs filename = Some (header :: before ++ [] :: after) ->
  fs' filename = Some (header :: before ++ after) ->
  read_csv fs filename priority = read_csv fs' filename priority.
Proof.
  intros Hfs Hfs'. unfold read_csv. rewrite Hfs, Hfs'.
  rewrite !validate_columns_cases. unfold DictReader.
  rewrite !List.filter_app. reflexivity.
Qed.

Lemma blank_records_ignored_witness :
  read_csv (fun _ => Some [example_header;
                           ["one"; "Stop ship"; "crash"; ""; ""]; [];
                           ["two"; "Stop ship"; "freeze"; ""; ""]])
    "bugs.csv" "Stop ship"
  = Ok [make_row example_header ["one"; "Stop ship"; "crash"; ""; ""];
        make_row example_header ["two"; "Stop ship"; "freeze"; ""; ""]].
Proof.
  rewrite (blank_records_ignored _
             (fun _ => Some [example_header;
                             ["one"; "Stop ship"; "crash"; ""; ""];
                             ["two"; "Stop ship"; "freeze"; ""; ""]])
             "bugs.csv" "Stop ship" example_header
             [["one"; "Stop ship"; "crash"; ""; ""]]
             [["two"; "Stop ship"; "freeze"; ""; ""]] eq_refl eq_refl).
  reflexivity.
Defined.

Lemma make_row_full (header record : list string) (c : string) :
  (length header <= length record)%nat -> c ∈ header ->
  exists v, named (make_row header record) !! c = Some (Some v).
Proof.
  intros Hlen Hc.
  destruct (make_row_has_columns header record c Hc) as [x Hx].
  assert (is_Some x) as [v ->]; [|exists v; exact Hx].
  revert Hx. unfold make_row.
  destruct (Nat.ltb_spec (length header) (length record)).
  - cbn [named]. apply fold_cells_values. intros y Hy.
    rewrite lookup_empty in Hy. discriminate.
  - destruct (Nat.ltb_spec (length record) (length header)); [lia|].
    cbn [named]. apply fold_cells_values. intros y Hy.
    rewrite lookup_empty in Hy. discriminate.
Qed.

(** In a file that passed the header check, a record with at least as
    many cells as the header always yields a draft, with a string for
    description. *)
Theorem full_record_has_draft (header record : list string)
    (rest : list (list string)) :
  validate_columns (header :: rest) = Ok tt ->
  (length header <= length record)%nat ->
  exists title d, draft (make_row header record) = Ok (title, Some d).
Proof.
  intros Hval Hlen. apply validate_columns_ok in Hval as [_ Hall].
  assert (forall c, c ∈ expected_cols ->
                    exists v, named (make_row header record) !! c
                              = Some (Some v)) as Hcell.
  { intros c Hc. apply make_row_full; [exact Hlen|].
    apply (filter_elem_of nonempty), Hall, Hc. }
  destruct (Hcell "Description of issue") as [d Hd]; [right; left|].
  destruct (Hcell "Title") as [t Ht]; [do 4 right; left|].
  destruct (Hcell "Additional notes") as [n Hn]; [do 2 right; left|].
  destruct (Hcell "Platform/URL") as [u Hu]; [do 3 right; left|].
  unfold draft, getcell. rewrite Hd, Ht, Hn, Hu. simpl.
  destruct (negb (String.eqb n "")), (negb (String.eqb u "")); simpl;
    eexists; eexists; reflexivity.
Qed.

Lemma full_record_has_draft_witness :
  exists title d,
    draft (make_row example_header ["one"; "Stop ship"; "crash"; ""; ""; "x"])
    = Ok (title, Some d).
Proof.
  apply (full_record_has_draft example_header
           ["one"; "Stop ship"; "crash"; ""; ""; "x"] [] eq_refl).
  simpl. lia.
Defined.

Lemma read_csv_filters_witness :
  read_csv example_file "bugs.csv" "Nice to have"
  = Ok [make_row example_header ["two"; "Nice to have"; "typo"; ""; ""]].
Proof.
  rewrite (read_csv_filters example_file "bugs.csv" "Nice to have"
             example_header _ eq_refl eq_refl).
  reflexivity.
Defined.

(** ** The project in the creation metadata *)

Lemma py_eq_str_false (k : json) (s : string) :
  k <> JStr s -> py_eq_str k s = false.
Proof.
  intros Hne. destruct k as [| | |s'| |]; try reflexivity. simpl.
  apply String.eqb_neq. congruence.
Qed.

Lemma find_project_skips (pk : string) (before rest : list json) :
  (forall p, p ∈ before ->
             exists k, py_getitem p "key" = Ok k /\ k <> JStr pk) ->
  find_project pk (before ++ rest) = find_project pk rest.
Proof.
  induction before as [|p before IH]; intros Hother; [reflexivity|].
  cbn [app find_project].
  destruct (Hother p) as (k & -> & Hne); [left|]. simpl.
  rewrite (py_eq_str_false k pk Hne). apply IH.
  intros q Hq. apply Hother. right. exact Hq.
Qed.

Section Metadata.

Variable cfg : config.
Variable b64encode : string -> string.
Variable remote : list request -> request -> result json.

(** The request for the creation metadata. *)
Definition createmeta_request : request :=
  {| req_method := GET;
     req_url := [base cfg; FLit ISSUES_API_ENDPOINT; FLit "/createmeta"];
     req_headers := _headers cfg b64encode;
     req_params := [];
     req_data := None |}.

Lemma get_create_metadata_run (pk : string) (w : world) :
  pk <> "" ->
  get_create_metadata cfg b64encode remote (Some pk) w
  = (try! resp := remote (requests_of (w_trace w)) createmeta_request in
     try! data := py_getitem resp "projects" in
     try! projects := py_iter data in
     find_project pk projects,
     emitted w [EvRequest createmeta_request]).
Proof.
  intros Hne. apply String.eqb_neq in Hne.
  unfold get_create_metadata, bind, get, send, liftR, nonempty, emitted.
  fold createmeta_request. rewrite Hne.
  destruct (remote _ createmeta_request) as [resp|e]; simpl; [|reflexivity].
  destruct (py_getitem resp "projects") as [data|e]; simpl; [|reflexivity].
  destruct (py_iter data); reflexivity.
Qed.

(** Of the projects the tracker lists, [get_create_metadata] returns the
    first whose key is the requested one. *)
Theorem get_create_metadata_selects (pk : string) (w : world) (resp : json)
    (before after : list json) (project : json) :
  pk <> "" ->
  remote (requests_of (w_trace w)) createmeta_request = Ok resp ->
  py_getitem resp "projects" = Ok (JArr (before ++ project :: after)) ->
  (forall p, p ∈ before ->
             exists k, py_getitem p "key" = Ok k /\ k <> JStr pk) ->
  py_getitem project "key" = Ok (JStr pk) ->
  get_create_metadata cfg b64encode remote (Some pk) w
  = (Ok project, emitted w [EvRequest createmeta_request]).
Proof.
  intros Hne Hr Hp Hother Hkey. rewrite get_create_metadata_run by exact Hne.
  rewrite Hr. simpl. rewrite Hp. simpl.
  rewrite find_project_skips by exact Hother.
  cbn [find_project]. rewrite Hkey. simpl. rewrite String.eqb_refl.
  reflexivity.
Qed.

(** When no listed project has the requested key, discovery raises
    [ValueError] naming the key, after the one request; no member gets an
    id and nothing is printed. *)
Theorem get_issue_types_unknown_project (pk : string) (w : world) (resp : json)
    (projects : list json) :
  pk <> "" ->
  remote (requests_of (w_trace w)) createmeta_request = Ok resp ->
  py_getitem resp "projects" = Ok (JArr projects) ->
  (forall p, p ∈ projects ->
             exists k, py_getitem p "key" = Ok k /\ k <> JStr pk) ->
  get_issue_types cfg b64encode remote (Some pk) w
  = (Raise (ValueError [FLit pk; FLit " not found"]),
     emitted w [EvRequest createmeta_request]).
Proof.
  intros Hne Hr Hp Hother. unfold get_issue_types, bind.
  rewrite get_create_metadata_run by exact Hne.
  rewrite Hr. simpl. rewrite Hp. simpl.
  rewrite <- (app_nil_r projects).
  rewrite find_project_skips by exact Hother. reflexivity.
Qed.

End Metadata.

Lemma get_create_metadata_selects_witness :
  fst (get_create_metadata source_config (fun s => s) example_tracker
         (Some "DW") (example_world []))
  = Ok (JObj [("key", JStr "DW");
              ("issuetypes",
               JArr [JObj [("name", JStr "Bug"); ("id", JStr "10004")];
                     JObj [("name", JStr "Spike"); ("id", JStr "1")]])]).
Proof.
  rewrite (get_create_metadata_selects source_config (fun s => s)
             example_tracker "DW" (example_world []) _
             [JObj [("key", JStr "XX")]] [] _ ltac:(discriminate)
             eq_refl eq_refl); [reflexivity| |reflexivity].
  intros p Hp. apply elem_of_cons in Hp as [->|Hp].
  - exists (JStr "XX"). split; [reflexivity|discriminate].
  - apply elem_of_nil in Hp. destruct Hp.
Defined.

Lemma get_issue_types_unknown_project_witness :
  let run := get_issue_types source_config (fun s => s) example_tracker
               (Some "QA") (example_world []) in
  fst run = Raise (ValueError [FLit "QA"; FLit " not found"])
  /\ w_jira_id (snd run) = ∅.
Proof.
  intros run. subst run.
  rewrite (get_issue_types_unknown_project source_config (fun s => s)
             example_tracker "QA" (example_world []) _ _ ltac:(discriminate)
             eq_refl eq_refl).
  - split; reflexivity.
  - intros p Hp. apply elem_of_cons in Hp as [->|Hp];
      [|apply elem_of_cons in Hp as [->|Hp]].
    + exists (JStr "XX"). split; [reflexivity|discriminate].
    + exists (JStr "DW"). split; [reflexivity|discriminate].
    + apply elem_of_nil in Hp. destruct Hp.
Defined.

(** ** Entries that discovery does not expect *)

Lemma for_each_app {A} (f : A -> M unit) (l1 l2 : list A) (w : world) :
  for_each f (l1 ++ l2) w
  = match for_each f l1 w with
    | (Ok _, w1) => for_each f l2 w1
    | (Raise e, w1) => (Raise e, w1)
    end.
Proof.
  revert w. induction l1 as [|x l1 IH]; intros w; [reflexivity|].
  cbn [app for_each]. unfold bind.
  destruct (f x w) as [[[]|e] w1]; [apply IH|reflexivity].
Qed.

(** An entry whose name cannot be read ends discovery with the error of
    that lookup, raised again by the handler that wanted to print the
    name: the entries after it are not looked at. *)
Theorem discovery_stops_at_nameless (before after : list json) (bad : json)
    (e : exn) (w : world) :
  (forall entry, entry ∈ before -> well_formed entry) ->
  py_getitem bad "name" = Raise e ->
  for_each register (before ++ bad :: after) w
  = (Raise e,
     {| w_trace := w_trace w ++ warnings before;
        w_stdin := w_stdin w;
        w_jira_id := registry_after before (w_jira_id w);
        w_project_key := w_project_key w |}).
Proof.
  intros Hwf Hbad. rewrite for_each_app, (for_each_register before w Hwf).
  cbn [for_each]. unfold bind, register, known_issue_type, liftR.
  rewrite Hbad. reflexivity.
Qed.

Lemma discovery_stops_at_nameless_witness :
  let run := for_each register
               [JObj [("name", JStr "Bug"); ("id", JStr "1")];
                JObj [("id", JStr "2")];
                JObj [("name", JStr "Epic"); ("id", JStr "3")]]
               (example_world []) in
  fst run = Raise (KeyError (JStr "name"))
  /\ w_jira_id (snd run) !! BUG = Some (JStr "1")
  /\ w_jira_id (snd run) !! EPIC = None.
Proof.
  intros run. subst run.
  assert (forall entry,
             entry ∈ [JObj [("name", JStr "Bug"); ("id", JStr "1")]] ->
             well_formed entry) as Hwf.
  { intros entry Hin. apply elem_of_cons in Hin as [->|Hin].
    - exists (JStr "Bug"), (JStr "1"). split; reflexivity.
    - apply elem_of_nil in Hin. destruct Hin. }
  pose proof (discovery_stops_at_nameless
                [JObj [("name", JStr "Bug"); ("id", JStr "1")]]
                [JObj [("name", JStr "Epic"); ("id", JStr "3")]]
                (JObj [("id", JStr "2")]) (KeyError (JStr "name"))
                (example_world []) Hwf eq_refl) as Hrun.
  cbn [app] in Hrun. rewrite Hrun. repeat split; reflexivity.
Defined.

(** An entry that names a member but has no id is reported as an
    unknown issue type, and the member keeps what it had. *)
Theorem register_without_id (entry : json) (t : IssueType) (e : exn)
    (w : world) :
  names entry t ->
  py_getitem entry "id" = Raise e ->
  register entry w
  = (Ok tt,
     emitted w [EvPrint [FStr (JStr (value t));
                         FLit " is not a known IssueType value"]]).
Proof.
  intros Hn Hid. unfold names in Hn.
  unfold register, known_issue_type, bind, liftR. rewrite Hn. simpl.
  rewrite by_value_value. simpl. rewrite Hid. reflexivity.
Qed.

Lemma register_without_id_witness :
  register (JObj [("name", JStr "Bug")]) (example_world [])
  = (Ok tt,
     emitted (example_world [])
       [EvPrint [FStr (JStr "Bug"); FLit " is not a known IssueType value"]]).
Proof.
  apply (register_without_id (JObj [("name", JStr "Bug")]) BUG
           (KeyError (JStr "id")) (example_world []) eq_refl eq_refl).
Defined.

(** ** The sprint query outside the driver *)

(** While the global [project_key] is unbound, as it is when the
    functions are used from another module, a board without an active
    sprint makes [get_current_sprint_id] raise [NameError] in place of the
    [ValueError] it was building. *)
Theorem sprint_lookup_unbound cfg b64encode remote (board : text) (w : world)
    (kv : list (string * json)) :
  remote (requests_of (w_trace w)) (sprint_request cfg b64encode board)
  = Ok (JObj kv) ->
  assoc "values" kv = None \/ assoc "values" kv = Some (JArr []) ->
  w_project_key w = None ->
  get_current_sprint_id cfg b64encode remote board w
  = (Raise NameError, emitted w [EvRequest (sprint_request cfg b64encode board)]).
Proof.
  intros Hr Hv Hpk.
  unfold get_current_sprint_id, bind, get, send, liftR, ret, raise,
    global_project_key. cbv zeta.
  fold (sprint_request cfg b64encode board). rewrite Hr.
  destruct w as [tr inp ids g]. simpl in Hpk. subst g. simpl.
  destruct Hv as [Hv|Hv]; rewrite Hv; reflexivity.
Qed.

Lemma sprint_lookup_unbound_witness :
  fst (get_current_sprint_id source_config (fun s => s) (answering [])
         [FLit "12"] (example_world []))
  = Raise NameError.
Proof.
  rewrite (sprint_lookup_unbound source_config (fun s => s) (answering [])
             [FLit "12"] (example_world []) _ eq_refl (or_intror eq_refl)
             eq_refl).
  reflexivity.
Defined.

(** ** The order of the issues a search returns *)

Lemma insert_by_key_perm {A} (k : Z) (x : A) (l : list (Z * A)) :
  insert_by_key k x l ≡ₚ (k, x) :: l.
Proof.
  induction l as [|[k' y] l IH]; simpl; [reflexivity|].
  destruct (k <=? k'); [reflexivity|].
  rewrite IH. apply Permutation_swap.
Qed.

Lemma stable_sort_perm {A} (l : list (Z * A)) : stable_sort l ≡ₚ l.
Proof.
  induction l as [|[k x] l IH]; simpl; [reflexivity|].
  rewrite insert_by_key_perm. f_equiv. exact IH.
Qed.

Lemma insert_by_key_sorted {A} (k : Z) (x : A) (l : list (Z * A)) :
  StronglySorted Z.le (map fst l) ->
  StronglySorted Z.le (map fst (insert_by_key k x l)).
Proof.
  induction l as [|[k' y] l IH]; simpl; intros Hs.
  - repeat constructor.
  - apply StronglySorted_inv in Hs as [Hs Hall].
    destruct (Z.leb_spec k k') as [Hle|Hgt]; simpl.
    + constructor; [constructor; assumption|].
      constructor; [exact Hle|].
      eapply Forall_impl; [exact Hall|]. intros z Hz. simpl in Hz. lia.
    + constructor; [apply IH, Hs|].
      assert (map fst (insert_by_key k x l) ≡ₚ k :: map fst l) as Hp.
      { rewrite insert_by_key_perm. reflexivity. }
      rewrite Hp. constructor; [lia|exact Hall].
Qed.

Lemma stable_sort_sorted {A} (l : list (Z * A)) :
  StronglySorted Z.le (map fst (stable_sort l)).
Proof.
  induction l as [|[k x] l IH]; simpl; [constructor|].
  apply insert_by_key_sorted, IH.
Qed.

(** A list that is already in ascending order comes back as it is, so
    issues with the same time stamp keep the order of the answer. *)
Lemma stable_sort_sorted_id {A} (l : list (Z * A)) :
  StronglySorted Z.le (map fst l) -> stable_sort l = l.
Proof.
  induction l as [|[k x] l IH]; simpl; intros Hs; [reflexivity|].
  apply StronglySorted_inv in Hs as [Hs Hall]. rewrite (IH Hs).
  destruct l as [|[k' y] l]; [reflexivity|]. simpl.
  apply Forall_cons in Hall as [Hle _]. simpl in Hle.
  destruct (Z.leb_spec k k'); [reflexivity|lia].
Qed.

Section SortedSearch.

Variable fromisoformat : json -> result datetime.

(** The key stored beside an issue is the instant of its time stamp. *)
Definition keyed (p : Z * json) : Prop :=
  exists d, updated fromisoformat (snd p) = Ok d /\ dt_instant d = fst p.

Lemma keyed_zip (issues : list json) (ks : list datetime) :
  map_r (updated fromisoformat) issues = Ok ks ->
  Forall keyed (zip (map dt_instant ks) issues)
  /\ map snd (zip (map dt_instant ks) issues) = issues.
Proof.
  revert ks. induction issues as [|issue issues IH]; intros ks; simpl.
  - intros [= <-]. split; [constructor|reflexivity].
  - destruct (updated fromisoformat issue) as [d|] eqn:Ed; simpl; [|discriminate].
    destruct (map_r (updated fromisoformat) issues) as [ds|]; simpl;
      [|discriminate].
    intros [= <-]. destruct (IH ds eq_refl) as [Hall Hsnd]. simpl. split.
    + constructor; [|exact Hall]. exists d. split; [exact Ed|reflexivity].
    + f_equal. exact Hsnd.
Qed.

Lemma keyed_keys (l : list (Z * json)) :
  Forall keyed l ->
  exists ks, map_r (updated fromisoformat) (map snd l) = Ok ks
             /\ map dt_instant ks = map fst l.
Proof.
  induction 1 as [|[k x] l (d & Hd & Hk) _ (ks & Hks & Hfst)]; simpl.
  - exists []. split; reflexivity.
  - simpl in Hd, Hk. rewrite Hd, Hks. simpl. exists (d :: ks).
    split; [reflexivity|]. simpl. rewrite Hk, Hfst. reflexivity.
Qed.

(** What [get_issues] returns holds the issues of the answer, each as
    often as the answer has it, in ascending order of their time stamps;
    an answer already in that order is returned unchanged. *)
Theorem sorted_by_updated_ascending (issues sorted : list json) :
  sorted_by_updated fromisoformat issues = Ok sorted ->
  sorted ≡ₚ issues
  /\ (exists ks, map_r (updated fromisoformat) sorted = Ok ks
                 /\ StronglySorted Z.le (map dt_instant ks))
  /\ (forall ks, map_r (updated fromisoformat) issues = Ok ks ->
                 StronglySorted Z.le (map dt_instant ks) -> sorted = issues).
Proof.
  unfold sorted_by_updated.
  destruct (map_r (updated fromisoformat) issues) as [ks|] eqn:Eks; simpl;
    [|discriminate].
  destruct (uniform ks); [|discriminate]. intros [= <-].
  destruct (keyed_zip issues ks Eks) as [Hkeyed Hsnd].
  split; [|split].
  - rewrite stable_sort_perm, Hsnd. reflexivity.
  - assert (Forall keyed (stable_sort (zip (map dt_instant ks) issues))) as Hk.
    { rewrite stable_sort_perm. exact Hkeyed. }
    destruct (keyed_keys _ Hk) as (ks' & Hks' & Hfst).
    exists ks'. split; [exact Hks'|]. rewrite Hfst. apply stable_sort_sorted.
  - intros ks0 [= <-] Hs. rewrite stable_sort_sorted_id; [exact Hsnd|].
    assert (map fst (zip (map dt_instant ks) issues) = map dt_instant ks)
      as ->; [|exact Hs].
    apply fst_zip. apply map_r_length in Eks. rewrite length_map. lia.
Qed.

End SortedSearch.

(** A reading of time stamps given as numbers, for the examples. *)
Definition example_clock (v : json) : result datetime :=
  match v with
  | JNum n => Ok {| dt_instant := n; dt_aware := true |}
  | JStr _ => Raise (ValueError [FLit "Invalid isoformat string"])
  | _ => Raise TypeError
  end.

Lemma sorted_by_updated_ascending_witness :
  let issue (key : string) (t : Z) :=
    JObj [("key", JStr key); ("updated", JNum t)] in
  sorted_by_updated example_clock [issue "A" 3; issue "B" 1; issue "C" 3]
  = Ok [issue "B" 1; issue "A" 3; issue "C" 3]
  /\ [issue "B" 1; issue "A" 3; issue "C" 3]
     ≡ₚ [issue "A" 3; issue "B" 1; issue "C" 3].
Proof.
  intros issue. split; [reflexivity|].
  apply (sorted_by_updated_ascending example_clock
           [issue "A" 3; issue "B" 1; issue "C" 3]
           [issue "B" 1; issue "A" 3; issue "C" 3] eq_refl).
Defined.

Lemma field_metadata_needs_discovery_witness :
  get_create_field_metadata source_config (fun s => s) example_tracker
    (Some "DW") BUG (example_world [])
  = (Raise AttributeError, example_world []).
Proof.
  apply (field_metadata_needs_discovery source_config (fun s => s)
           example_tracker (Some "DW") BUG (example_world []) eq_refl).
Defined.

(** A tracker that answers every request with the given field schema. *)
Definition schema_tracker (fields : list json)
  : list request -> request -> result json :=
  fun _ _ => Ok (JObj [("fields", JArr fields)]).

Definition example_field (key : string) (required : bool) : json :=
  JObj [("name", JStr key); ("key", JStr key); ("required", JBool required);
        ("schema", JObj [("type", JStr "string")]);
        ("operations", JArr [JStr "set"])].

Lemma field_metadata_summaries_witness :
  let w := {| w_trace := []; w_stdin := []; w_jira_id := {[BUG := JStr "10004"]};
              w_project_key := None |} in
  let fields := [example_field "summary" true; example_field "labels" false] in
  exists out,
    length out = 2%nat
    /\ get_create_field_metadata source_config (fun s => s)
         (schema_tracker fields) (Some "DW") BUG w
       = (Ok (JArr out),
          emitted w
            [EvRequest (fields_request source_config (fun s => s) (Some "DW")
                          (JStr "10004"));
             EvPrint [FLit "Required fields: "; FStr (JArr [JStr "summary"])]]).
Proof.
  intros w fields.
  destruct (field_metadata_summaries source_config (fun s => s)
              (schema_tracker fields) (Some "DW") BUG w (JStr "10004")
              (JObj [("fields", JArr fields)]) fields _
              eq_refl eq_refl eq_refl eq_refl)
    as (keys & Hkeys & Hlen & Hrun).
  cbv in Hkeys. injection Hkeys as <-. eexists. split; [exact Hlen|exact Hrun].
Defined.

Lemma loop_tickets_witness :
  let row := example_row "one" "Stop ship" in
  exists w',
    for_each (process_row source_config (fun s => s) example_tracker
                (Some "DW") example_args JNull)
      [row; row; row] (example_world ["y"; "no"; ""; "later"])
    = (Ok tt, w')
    /\ w_stdin w' = ["later"]
    /\ length (posts_of (w_trace w')) = 2%nat.
Proof.
  intros row.
  destruct (loop_tickets source_config (fun s => s) example_tracker
              (Some "DW") example_args JNull) with
    (rows := [row; row; row]) (answers := ["y"; "no"; ""])
    (rest := ["later"]) (w := example_world ["y"; "no"; ""; "later"])
    as (w' & Hrun & Hrest & Hposts).
  - intros hist req. unfold example_tracker, is_post.
    destruct (req_method req); intros Hpost; [discriminate Hpost|].
    exists (JObj [("key", JStr "DW-1")]), (JStr "DW-1"). split; reflexivity.
  - reflexivity.
  - reflexivity.
  - intros r Hr. exists (Some "one", Some "crash").
    repeat (apply elem_of_cons in Hr as [->|Hr]); try reflexivity.
    apply elem_of_nil in Hr. destruct Hr.
  - exists w'. split; [exact Hrun|]. split; [exact Hrest|].
    rewrite Hposts. reflexivity.
Defined.

Lemma get_board_id_many_witness :
  fst (get_board_id source_config (fun s => s)
         (answering [JObj [("id", JNum 1); ("name", JStr "A")];
                     JObj [("id", JNum 2); ("name", JStr "B")]])
         (Some "DW") "scrum" (example_world []))
  = Raise TypeError.
Proof.
  apply (get_board_id_many source_config (fun s => s) _ (Some "DW") "scrum"
           (example_world [])
           (JObj [("values",
                   JArr [JObj [("id", JNum 1); ("name", JStr "A")];
                         JObj [("id", JNum 2); ("name", JStr "B")]])])
           (JObj [("id", JNum 1); ("name", JStr "A")])
           [JObj [("id", JNum 2); ("name", JStr "B")]] (JStr "A") (JNum 1)
           eq_refl eq_refl ltac:(discriminate) eq_refl eq_refl).
Defined.

(** The value of a result, [JNull] for a failure. *)
Definition fst_ok (r : result json * world) : json :=
  match fst r with
  | Ok v => v
  | Raise _ => JNull
  end.

(** A tracker like [example_tracker] whose board has no active sprint. *)
Definition idle_tracker : list request -> request -> result json :=
  fun hist r =>
    match req_url r with
    | [_; _; _; _; FLit "/sprint"] => Ok (JObj [("values", JArr [])])
    | _ => example_tracker hist r
    end.

Lemma prelude_no_active_sprint_witness :
  let a := {| filename := "bugs.csv"; epic := None; board_id := Some "12";
              priority := "Stop ship"; list_fields := false;
              add_to_sprint := true |} in
  fst (prelude source_config (fun s => s) idle_tracker a (example_world []))
  = Raise (ValueError (absence_msg (JStr "DW"))).
Proof.
  intros a.
  apply (prelude_no_active_sprint source_config (fun s => s) idle_tracker a
           "12" (example_world [])
           (fst_ok (get_issue_types source_config (fun s => s) idle_tracker
                      (Some "DW")
                      (at_discovery source_config (example_world []))))
           (snd (get_issue_types source_config (fun s => s) idle_tracker
                   (Some "DW")
                   (at_discovery source_config (example_world []))))
           [("values", JArr [])]
           eq_refl eq_refl eq_refl ltac:(discriminate) eq_refl eq_refl
           (or_intror eq_refl)).
Defined.

(** ** What the driver reads from a checked file *)

Lemma NoDup_lookup_last (l : list string) (i : nat) (c : string) :
  NoDup l -> l !! i = Some c ->
  forall j, (i < j)%nat -> l !! j <> Some c.
Proof.
  intros Hnd Hi j Hlt Hj.
  pose proof (NoDup_lookup l i j c Hnd Hi Hj). lia.
Qed.

Lemma nonempty_later (header : list string) (c : string) :
  nonempty c = true ->
  NoDup (List.filter nonempty header) ->
  forall i, header !! i = Some c ->
  forall j, (i < j)%nat -> header !! j <> Some c.
Proof.
  intros Hc. induction header as [|x header IH]; intros Hnd i Hi j Hlt Hj.
  - discriminate.
  - destruct j as [|j]; [lia|]. cbn [List.filter] in Hnd.
    destruct i as [|i].
    + injection Hi as ->. rewrite Hc in Hnd. apply NoDup_cons in Hnd as [Hn _].
      apply Hn. apply filter_elem_of. split; [|exact Hc].
      apply list_elem_of_lookup. exists j. exact Hj.
    + apply (IH ltac:(destruct (nonempty x);
                      [apply NoDup_cons in Hnd as [_ Hnd]|]; exact Hnd)
               i Hi j ltac:(lia) Hj).
Qed.

(** In a file that passed the header check, the cell the driver reads
    under a named column is the cell of the record at the place of that
    column. *)
Theorem checked_row_cell (header record : list string)
    (rest : list (list string)) (i : nat) (c v : string) :
  validate_columns (header :: rest) = Ok tt ->
  c <> "" ->
  header !! i = Some c ->
  record !! i = Some v ->
  getcell (make_row header record) c = Ok (Some v).
Proof.
  intros Hval Hc Hi Hv. apply validate_columns_ok in Hval as [Hnd _].
  unfold getcell. rewrite (make_row_lookup header record i c v Hi Hv).
  - reflexivity.
  - apply (nonempty_later header c); [|exact Hnd|exact Hi].
    unfold nonempty. apply negb_true_iff, String.eqb_neq, Hc.
Qed.

Lemma checked_row_cell_witness :
  getcell (make_row example_header ["one"; "Stop ship"; "crash"; ""; ""])
    "Priority" = Ok (Some "Stop ship").
Proof.
  apply (checked_row_cell example_header
           ["one"; "Stop ship"; "crash"; ""; ""] [] 1 "Priority" "Stop ship"
           eq_refl ltac:(discriminate) eq_refl eq_refl).
Defined.

(** A record that ends before the Priority column is never selected,
    whatever priority is asked for. *)
Theorem short_record_not_selected (header record : list string)
    (priority : string) :
  "Priority" ∈ drop (length record) header ->
  has_priority priority (make_row header record) = false.
Proof.
  intros Hin. unfold has_priority.
  rewrite (make_row_short header record "Priority" Hin).
  apply bool_decide_eq_false_2. discriminate.
Qed.

Lemma short_record_not_selected_witness :
  has_priority "Stop ship" (make_row example_header ["one"]) = false.
Proof.
  apply (short_record_not_selected example_header ["one"] "Stop ship").
  simpl. left.
Defined.

(** ** The query of a search *)

(** The query string is empty, so that the search is not filtered at
    all, exactly when no filter is given: each of the five is absent, or
    an empty string, or an empty list. *)
Theorem unfiltered_search (assignee project : option string)
    (in_current_sprint : bool) (statuses keys : option (list string)) :
  String.concat " AND "
    (jql_parts assignee project in_current_sprint statuses keys) = ""
  <-> cell_truthy assignee = false /\ cell_truthy project = false
      /\ in_current_sprint = false
      /\ (statuses = None \/ statuses = Some [])
      /\ (keys = None \/ keys = Some []).
Proof.
  destruct assignee as [[|c s]|], project as [[|c' s']|], in_current_sprint,
    statuses as [[|st sts]|], keys as [[|k [|k' ks]]|];
    simpl; split; intros H;
    try discriminate H;
    try (destruct H as (H1 & H2 & H3 & [H4|H4] & [H5|H5]); discriminate);
    auto 10.
Qed.

(** ** Which tickets a run can create *)

Section Tickets.

Variable cfg : config.
Variable b64encode : string -> string.
Variable remote : list request -> request -> result json.
Variable project_key : option string.
Variable a : args.
Variable sprint_id : json.

Lemma process_row_posts (row : csv_row) (w : world) :
  exists l,
    posts_of (w_trace (snd (process_row cfg b64encode remote project_key a
                              sprint_id row w)))
    = posts_of (w_trace w) ++ l
    /\ l `sublist_of` ticket_of cfg b64encode project_key a sprint_id row.
Proof.
  unfold ticket_of. destruct (draft row) as [[t d]|e] eqn:Hd.
  - destruct (w_stdin w) as [|ans rest] eqn:Hin.
    + exists []. split; [|apply sublist_nil_l].
      unfold process_row, bind, liftR, print, emit, input, bind.
      rewrite Hd. simpl. rewrite Hin. simpl.
      rewrite !posts_of_app. simpl. rewrite !app_nil_r. reflexivity.
    + rewrite (process_row_run cfg b64encode remote project_key a sprint_id
                 row t d ans rest w Hd Hin).
      set (kw := kwargs_of project_key a sprint_id t d).
      destruct (confirmed ans).
      * exists [ticket_request cfg b64encode kw]. split; [|reflexivity].
        destruct (remote _ _) as [resp|e];
          [destruct (py_getitem resp "key")|];
          cbn [snd emitted asked w_trace]; rewrite !posts_of_app;
          cbn; rewrite ?app_nil_r; reflexivity.
      * exists []. split; [|apply sublist_nil_l].
        cbn [snd emitted asked w_trace]. rewrite !posts_of_app. cbn.
        rewrite !app_nil_r. reflexivity.
  - exists []. split; [|reflexivity].
    unfold process_row, bind, liftR. rewrite Hd. simpl.
    rewrite app_nil_r. reflexivity.
Qed.

Lemma loop_posts (rows : list csv_row) (w : world) :
  exists l,
    posts_of (w_trace (snd (for_each (process_row cfg b64encode remote
                                        project_key a sprint_id) rows w)))
    = posts_of (w_trace w) ++ l
    /\ l `sublist_of`
         flat_map (ticket_of cfg b64encode project_key a sprint_id) rows.
Proof.
  revert w. induction rows as [|row rows IH]; intros w.
  - exists []. split; [simpl; rewrite app_nil_r; reflexivity|reflexivity].
  - destruct (process_row_posts row w) as (l1 & Hl1 & Hs1).
    cbn [for_each flat_map]. unfold bind.
    destruct (process_row _ _ _ _ _ _ row w) as [[[]|e] w1]; simpl in Hl1.
    + destruct (IH w1) as (l2 & Hl2 & Hs2). exists (l1 ++ l2). split.
      * rewrite Hl2, Hl1, app_assoc. reflexivity.
      * apply sublist_app; assumption.
    + exists l1. split; [exact Hl1|].
      rewrite <- (app_nil_r l1). apply sublist_app; [exact Hs1|].
      apply sublist_nil_l.
Qed.

End Tickets.

Section Runs.

Variable cfg : config.
Variable b64encode : string -> string.
Variable remote : list request -> request -> result json.

(** However a run goes, the creation requests it sends are tickets of
    rows of the requested priority, at most one for each row and in the
    order of the file; a run that does not get to read such rows sends
    none. *)
Theorem main_tickets fs (a : args) (w : world) :
  exists l,
    posts_of (w_trace (snd (main cfg b64encode remote fs a w)))
    = posts_of (w_trace w) ++ l
    /\ match fst (prelude cfg b64encode remote a w),
             read_csv fs (filename a) (priority a) with
       | Ok sprint_id, Ok rows =>
           l `sublist_of`
             flat_map (ticket_of cfg b64encode (PROJECT_KEY cfg) a sprint_id)
               rows
       | _, _ => l = []
       end.
Proof.
  pose proof (quiet_prelude cfg b64encode remote a w) as Hq.
  unfold main, bind.
  destruct (prelude cfg b64encode remote a w) as [[sprint_id|e] w1];
    cbn [fst snd] in *.
  - unfold print, emit, liftR.
    destruct (read_csv fs (filename a) (priority a)) as [rows|e]; cbn [snd].
    + match goal with
      | |- context [for_each ?f rows ?w2] =>
          destruct (loop_posts cfg b64encode remote (PROJECT_KEY cfg) a
                      sprint_id rows w2) as (l & Hl & Hs)
      end.
      exists l. split; [|exact Hs]. rewrite Hl.
      cbn [w_trace]. rewrite !posts_of_app. cbn. rewrite !app_nil_r, Hq.
      reflexivity.
    + exists []. split; [|reflexivity]. cbn [w_trace].
      rewrite posts_of_app. cbn. rewrite !app_nil_r. exact Hq.
  - exists []. split; [|reflexivity].
    rewrite app_nil_r. exact Hq.
Qed.

(** A file that cannot be opened ends the run with [OSError], and a file
    without any record with [StopIteration] rather than with the error of
    the header check; either way after the metadata has been fetched, and
    without a ticket. *)
Theorem main_unreadable_file fs (a : args) (w : world) (e : exn) :
  (fs (filename a) = None /\ e = OSError)
  \/ (fs (filename a) = Some [] /\ e = StopIteration) ->
  posts_of (w_trace (snd (main cfg b64encode remote fs a w)))
  = posts_of (w_trace w)
  /\ main cfg b64encode remote fs a w =
       match prelude cfg b64encode remote a w with
       | (Ok _, w1) =>
           (Raise e, emitted w1 [EvPrint [FLit "Reading CSV "; FLit (filename a)]])
       | (Raise e', w1) => (Raise e', w1)
       end.
Proof.
  intros Hfs.
  assert (read_csv fs (filename a) (priority a) = Raise e) as Hread.
  { unfold read_csv. destruct Hfs as [[-> ->]|[-> ->]]; reflexivity. }
  pose proof (main_read_fails cfg b64encode remote fs a e w Hread) as Hmain.
  split; [|exact Hmain]. rewrite Hmain.
  pose proof (quiet_prelude cfg b64encode remote a w) as Hq.
  destruct (prelude _ _ _ a w) as [[s|e'] w1]; simpl in *.
  - rewrite posts_of_app, app_nil_r. exact Hq.
  - exact Hq.
Qed.

End Runs.

Lemma main_unreadable_file_witness :
  fst (main source_config (fun s => s) example_tracker (fun _ => Some [])
         example_args (example_world []))
  = Raise StopIteration.
Proof.
  rewrite (proj2 (main_unreadable_file source_config (fun s => s)
                    example_tracker (fun _ => Some []) example_args
                    (example_world []) StopIteration
                    (or_intror (conj eq_refl eq_refl)))).
  reflexivity.
Defined.

(** The query of a search with every filter given. *)
Example jql_all_filters :
  String.concat " AND "
    (jql_parts (Some "currentuser()") (Some "DW") true
       (Some ["Bug"; "Task"]) (Some ["DW-1"; "DW-2"]))
  = "assignee=currentuser() AND project = DW AND sprint IN openSprints()"
    +:+ " AND status IN (Bug, Task) AND issueKey IN ("
    +:+ dquote +:+ "DW-1" +:+ dquote +:+ ", " +:+ dquote +:+ "DW-2" +:+ dquote
    +:+ ")".
Proof. reflexivity. Qed.

(** One status and one key. *)
Example jql_single_status_and_key :
  jql_parts None None false (Some ["Bug"]) (Some ["DW-1"])
  = ["status IN (Bug)"; "issueKey = " +:+ dquote +:+ "DW-1" +:+ dquote].
Proof. reflexivity. Qed.

(** A file that passes the header check, with a record that stops before
    the description column: the row is selected, its notes are not empty,
    and appending them to the [None] description raises [TypeError], so no
    description is composed for it. *)
Lemma short_record_description_fails :
  let header := ["Additional notes"; "Title"; "Priority"; "Platform/URL";
                 "Description of issue"] in
  let record := ["only on Android"; "t"; "Stop ship"] in
  validate_columns [header; record] = Ok tt
  /\ read_csv (fun _ => Some [header; record]) "bugs.csv" "Stop ship"
     = Ok [make_row header record]
  /\ getcell (make_row header record) "Description of issue" = Ok None
  /\ getcell (make_row header record) "Additional notes"
     = Ok (Some "only on Android")
  /\ draft (make_row header record) = Raise TypeError.
Proof. intros header record. repeat split; reflexivity. Qed.
